(** * Claude Terminal plugin: session lifecycle and mode coordination

    A shallow embedding of [src/main.ts]: the plugin object
    [ClaudeTerminalPlugin] with its floating session, the docked
    [ClaudeTerminalView] objects, and the host event loop that delivers
    user actions, resize notifications, animation frames and timers.

    The host (Obsidian workspace, DOM, xterm.js, node-pty) is not part of
    the repository.  It is modelled by
    - a record [Host] of ambient facts (environment, vault path, outcome of
      each attempt to load the pty module and to spawn);
    - a [trace] of the calls the plugin makes on host objects, each stamped
      with the logical time of the call;
    - a queue of pending callbacks ([setTimeout], [requestAnimationFrame]).

    Theme lookup and the layout of the settings panel are outside the
    session logic and are left out.  The pointer arithmetic of the floating
    window (header drag, resize handle) is modelled on its own in [Pointer];
    plugin unload is a function of the model, not an event of a run. *)

From stdpp Require Import gmap strings list fin_maps.
From Stdlib Require QArith Qminmax Lqa.

Set Default Proof Using "Type".

(** ** Settings *)

Record ClaudeTerminalSettings := mkSettings {
  shellPath : string;
  autoLaunchClaude : bool;
  fontSize : nat;
  floatingWidth : nat;
  floatingHeight : nat;
}.

(** The persisted record handed back by [loadData]: any field may be absent. *)
Record SavedData := mkSaved {
  saved_shellPath : option string;
  saved_autoLaunchClaude : option bool;
  saved_fontSize : option nat;
  saved_floatingWidth : option nat;
  saved_floatingHeight : option nat;
}.

(** ** Host *)

(** One activation's dealings with node-pty: [require] of the plugin-local
    module, [require] of the global one, and [spawn].  [Some e] is the
    exception thrown, rendered as text. *)
Record PtyAttempt := mkAttempt {
  local_module : option string;
  global_module : option string;
  spawn_error : option string;
}.

Record Host := mkHost {
  platform : string;
  process_env : gmap string string;
  basePath : string;
  loadData : SavedData;
  initial_grid : nat * nat;
  pty_attempt : nat → PtyAttempt;
}.

(** ** Handles and host objects *)

Inductive Surface := Floating | Docked (v : nat).

Global Instance Surface_eq_dec : EqDecision Surface.
Proof. solve_decision. Defined.

(** An xterm [Terminal]: its grid and the listeners registered on it. *)
Record Terminal := mkTerminal {
  t_id : nat;
  cols : nat;
  rows : nat;
  onData : nat;
  onResize : nat;
}.

(** The floating overlay element: the [is-hidden] class, the terminals
    opened in its content box, and the grid that box currently affords. *)
Record Container := mkContainer {
  is_hidden : bool;
  content : list nat;
  c_grid : nat * nat;
}.

Record SpawnRequest := mkSpawn {
  sp_file : string;
  sp_args : list string;
  sp_name : string;
  sp_cols : nat;
  sp_rows : nat;
  sp_cwd : string;
  sp_env : gmap string string;
}.

Inductive Origin := Keyboard | ClearCommand | AutoLaunch.

Inductive Effect :=
  | TerminalNew (t : nat) (font : nat)
  | TerminalLoadAddon (t f : nat)
  | TerminalOpen (t : nat) (s : Surface)
  | TerminalWrite (t : nat) (data : string)
  | TerminalFocus (t : nat)
  | TerminalScrollToBottom (t : nat)
  | TerminalDispose (t : nat)
  | FitAddonFit (f : nat)
  | PtySpawn (p : nat) (req : SpawnRequest)
  | PtyWrite (o : Origin) (p : nat) (data : string)
  | PtyResize (p : nat) (c r : nat)
  | PtyKill (p : nat)
  | ObserverObserve (o : nat) (s : Surface)
  | ObserverDisconnect (o : nat)
  | ConsoleError (msg err : string)
  | SaveData (s : ClaudeTerminalSettings).

Inductive Callback :=
  | ViewOpenTimeout (v : nat)
  | ViewFrameOuter (v : nat)
  | ViewFrameInner (v : nat)
  | ViewFitDebounce (v : nat)
  | ViewAutoLaunch (v : nat)
  | FloatingFrameOuter
  | FloatingFrameInner
  | FloatingFitDebounce
  | FloatingAutoLaunch.

Record Timer := mkTimer {
  timer_id : nat;
  due : nat;
  callback : Callback;
}.

(** ** The two classes *)

Record ClaudeTerminalView := mkView {
  terminal : option Terminal;
  fitAddon : option nat;
  ptyProcess : option nat;
  resizeObserver : option nat;
  fitDebounceTimer : option nat;
  (* host side: is the leaf still in the workspace, and the grid its
     content box affords *)
  attached : bool;
  v_grid : nat * nat;
}.

Record ClaudeTerminalPlugin := mkPlugin {
  settings : ClaudeTerminalSettings;
  floatingContainer : option Container;
  floatingTerminal : option Terminal;
  floatingFitAddon : option nat;
  floatingPtyProcess : option nat;
  floatingResizeObserver : option nat;
  isFloatingVisible : bool;
  floatingFitDebounceTimer : option nat;
}.

(** ** World: the plugin, the view objects, and the event loop *)

Record World := mkWorld {
  plugin : ClaudeTerminalPlugin;
  views : list ClaudeTerminalView;
  now : nat;
  timers : list Timer;
  next_id : nat;
  spawn_attempts : nat;
  alive : gmap nat Surface;
  trace : list (nat * Effect);
  uncaught : list string;
}.

(** Field updates. *)

Definition set_plugin (f : ClaudeTerminalPlugin → ClaudeTerminalPlugin) (w : World) : World :=
  mkWorld (f (plugin w)) (views w) (now w) (timers w) (next_id w)
          (spawn_attempts w) (alive w) (trace w) (uncaught w).
Definition set_views (f : list ClaudeTerminalView → list ClaudeTerminalView) (w : World) : World :=
  mkWorld (plugin w) (f (views w)) (now w) (timers w) (next_id w)
          (spawn_attempts w) (alive w) (trace w) (uncaught w).
Definition set_now (f : nat → nat) (w : World) : World :=
  mkWorld (plugin w) (views w) (f (now w)) (timers w) (next_id w)
          (spawn_attempts w) (alive w) (trace w) (uncaught w).
Definition set_timers (f : list Timer → list Timer) (w : World) : World :=
  mkWorld (plugin w) (views w) (now w) (f (timers w)) (next_id w)
          (spawn_attempts w) (alive w) (trace w) (uncaught w).
Definition set_next_id (f : nat → nat) (w : World) : World :=
  mkWorld (plugin w) (views w) (now w) (timers w) (f (next_id w))
          (spawn_attempts w) (alive w) (trace w) (uncaught w).
Definition set_spawn_attempts (f : nat → nat) (w : World) : World :=
  mkWorld (plugin w) (views w) (now w) (timers w) (next_id w)
          (f (spawn_attempts w)) (alive w) (trace w) (uncaught w).
Definition set_alive (f : gmap nat Surface → gmap nat Surface) (w : World) : World :=
  mkWorld (plugin w) (views w) (now w) (timers w) (next_id w)
          (spawn_attempts w) (f (alive w)) (trace w) (uncaught w).
Definition set_trace (f : list (nat * Effect) → list (nat * Effect)) (w : World) : World :=
  mkWorld (plugin w) (views w) (now w) (timers w) (next_id w)
          (spawn_attempts w) (alive w) (f (trace w)) (uncaught w).
Definition set_uncaught (f : list string → list string) (w : World) : World :=
  mkWorld (plugin w) (views w) (now w) (timers w) (next_id w)
          (spawn_attempts w) (alive w) (trace w) (f (uncaught w)).

Definition set_settings (x : ClaudeTerminalSettings) (p : ClaudeTerminalPlugin) :=
  mkPlugin x (floatingContainer p) (floatingTerminal p) (floatingFitAddon p)
           (floatingPtyProcess p) (floatingResizeObserver p) (isFloatingVisible p)
           (floatingFitDebounceTimer p).
Definition set_floatingContainer (x : option Container) (p : ClaudeTerminalPlugin) :=
  mkPlugin (settings p) x (floatingTerminal p) (floatingFitAddon p)
           (floatingPtyProcess p) (floatingResizeObserver p) (isFloatingVisible p)
           (floatingFitDebounceTimer p).
Definition set_floatingTerminal (x : option Terminal) (p : ClaudeTerminalPlugin) :=
  mkPlugin (settings p) (floatingContainer p) x (floatingFitAddon p)
           (floatingPtyProcess p) (floatingResizeObserver p) (isFloatingVisible p)
           (floatingFitDebounceTimer p).
Definition set_floatingFitAddon (x : option nat) (p : ClaudeTerminalPlugin) :=
  mkPlugin (settings p) (floatingContainer p) (floatingTerminal p) x
           (floatingPtyProcess p) (floatingResizeObserver p) (isFloatingVisible p)
           (floatingFitDebounceTimer p).
Definition set_floatingPtyProcess (x : option nat) (p : ClaudeTerminalPlugin) :=
  mkPlugin (settings p) (floatingContainer p) (floatingTerminal p) (floatingFitAddon p)
           x (floatingResizeObserver p) (isFloatingVisible p)
           (floatingFitDebounceTimer p).
Definition set_floatingResizeObserver (x : option nat) (p : ClaudeTerminalPlugin) :=
  mkPlugin (settings p) (floatingContainer p) (floatingTerminal p) (floatingFitAddon p)
           (floatingPtyProcess p) x (isFloatingVisible p)
           (floatingFitDebounceTimer p).
Definition set_isFloatingVisible (x : bool) (p : ClaudeTerminalPlugin) :=
  mkPlugin (settings p) (floatingContainer p) (floatingTerminal p) (floatingFitAddon p)
           (floatingPtyProcess p) (floatingResizeObserver p) x
           (floatingFitDebounceTimer p).
Definition set_floatingFitDebounceTimer (x : option nat) (p : ClaudeTerminalPlugin) :=
  mkPlugin (settings p) (floatingContainer p) (floatingTerminal p) (floatingFitAddon p)
           (floatingPtyProcess p) (floatingResizeObserver p) (isFloatingVisible p)
           x.

Definition set_terminal (x : option Terminal) (v : ClaudeTerminalView) :=
  mkView x (fitAddon v) (ptyProcess v) (resizeObserver v) (fitDebounceTimer v)
         (attached v) (v_grid v).
Definition set_fitAddon (x : option nat) (v : ClaudeTerminalView) :=
  mkView (terminal v) x (ptyProcess v) (resizeObserver v) (fitDebounceTimer v)
         (attached v) (v_grid v).
Definition set_ptyProcess (x : option nat) (v : ClaudeTerminalView) :=
  mkView (terminal v) (fitAddon v) x (resizeObserver v) (fitDebounceTimer v)
         (attached v) (v_grid v).
Definition set_resizeObserver (x : option nat) (v : ClaudeTerminalView) :=
  mkView (terminal v) (fitAddon v) (ptyProcess v) x (fitDebounceTimer v)
         (attached v) (v_grid v).
Definition set_fitDebounceTimer (x : option nat) (v : ClaudeTerminalView) :=
  mkView (terminal v) (fitAddon v) (ptyProcess v) (resizeObserver v) x
         (attached v) (v_grid v).
Definition set_attached (x : bool) (v : ClaudeTerminalView) :=
  mkView (terminal v) (fitAddon v) (ptyProcess v) (resizeObserver v)
         (fitDebounceTimer v) x (v_grid v).
Definition set_v_grid (x : nat * nat) (v : ClaudeTerminalView) :=
  mkView (terminal v) (fitAddon v) (ptyProcess v) (resizeObserver v)
         (fitDebounceTimer v) (attached v) x.

Definition resized (g : nat * nat) (t : Terminal) : Terminal :=
  mkTerminal (t_id t) g.1 g.2 (onData t) (onResize t).
Definition listening (t : Terminal) : Terminal :=
  mkTerminal (t_id t) (cols t) (rows t) (S (onData t)) (S (onResize t)).

(** ** A state and exception monad

    JavaScript statements run against a mutable state and may throw; what was
    written before a throw stays written. *)

Inductive Outcome (A : Type) :=
  | Ok (a : A)
  | Throw (e : string).
Arguments Ok {A} a.
Arguments Throw {A} e.

Definition M (S A : Type) : Type := S → Outcome A * S.

Global Instance M_ret {S} : MRet (M S) := λ A a s, (Ok a, s).
Global Instance M_bind {S} : MBind (M S) := λ A B f m s,
  match m s with
  | (Ok a, s') => f a s'
  | (Throw e, s') => (Throw e, s')
  end.

Definition throw {S A} (e : string) : M S A := λ s, (Throw e, s).
Definition try_catch {S A} (body : M S A) (handler : string → M S A) : M S A :=
  λ s, match body s with
       | (Ok a, s') => (Ok a, s')
       | (Throw e, s') => handler e s'
       end.
Definition gets {S A} (f : S → A) : M S A := λ s, (Ok (f s), s).
Definition modify {S} (f : S → S) : M S unit := λ s, (Ok tt, f s).

(** [x.m()] on a possibly-null handle without [?.]: a null receiver throws. *)
Definition deref {S A} (what : string) (o : option A) : M S A :=
  match o with
  | Some a => mret a
  | None => throw ("TypeError: " +:+ what +:+ " is null")
  end.

Fixpoint repeatM {S} (n : nat) (m : M S unit) : M S unit :=
  match n with
  | 0 => mret tt
  | S n' => m;; repeatM n' m
  end.

Fixpoint forM {S A} (l : list A) (f : A → M S unit) : M S unit :=
  match l with
  | [] => mret tt
  | x :: l' => f x;; forM l' f
  end.

(** ** Literals of the source *)

Definition CR : string := String (Ascii.ascii_of_nat 13) "".
Definition LF : string := String (Ascii.ascii_of_nat 10) "".
Definition ESC : string := String (Ascii.ascii_of_nat 27) "".

(** ["\r\n\x1b[31mError: Failed to start terminal.\x1b[0m\r\n"] *)
Definition error_line : string :=
  CR +:+ LF +:+ ESC +:+ "[31mError: Failed to start terminal." +:+ ESC +:+ "[0m" +:+ CR +:+ LF.
(** [`\r\n${error}\r\n`] *)
Definition error_text (error : string) : string := CR +:+ LF +:+ error +:+ CR +:+ LF.
Definition clear_command : string := "clear" +:+ CR.
Definition launch_command : string := "clear && claude" +:+ CR.
Definition failed_to_start : string := "Claude Terminal: Failed to start PTY".

Definition DEFAULT_SETTINGS (h : Host) : ClaudeTerminalSettings :=
  {| shellPath :=
       if decide (platform h = "win32") then "powershell.exe"
       else match process_env h !! "SHELL" with
            | Some s => if decide (s = "") then "/bin/zsh" else s
            | None => "/bin/zsh"
            end;
     autoLaunchClaude := true;
     fontSize := 13;
     floatingWidth := 500;
     floatingHeight := 350 |}.

(** [Object.assign({}, DEFAULT_SETTINGS, await this.loadData())] *)
Definition loadSettings (h : Host) : ClaudeTerminalSettings :=
  let d := DEFAULT_SETTINGS h in
  let s := loadData h in
  {| shellPath := default (shellPath d) (saved_shellPath s);
     autoLaunchClaude := default (autoLaunchClaude d) (saved_autoLaunchClaude s);
     fontSize := default (fontSize d) (saved_fontSize s);
     floatingWidth := default (floatingWidth d) (saved_floatingWidth s);
     floatingHeight := default (floatingHeight d) (saved_floatingHeight s) |}.

(** [{...process.env, TERM: "xterm-256color", COLORTERM: "truecolor"}] *)
Definition spawn_env (h : Host) : gmap string string :=
  <["COLORTERM" := "truecolor"]> (<["TERM" := "xterm-256color"]> (process_env h)).

Definition fresh_view (h : Host) : ClaudeTerminalView :=
  mkView None None None None None true (initial_grid h).

Definition init (h : Host) : World :=
  {| plugin := mkPlugin (loadSettings h) None None None None None false None;
     views := [];
     now := 0;
     timers := [];
     next_id := 0;
     spawn_attempts := 0;
     alive := ∅;
     trace := [];
     uncaught := [] |}.

(** User actions, host notifications and the passage of time. *)
Inductive Event :=
  | LayoutReady
  | ToggleFloating
  | ShowFloating
  | HideFloating
  | OpenInSidebar (rightLeaf : bool)
  | ClickClear
  | ClickClose
  | ResizeDragMove (newWidth newHeight : nat) (g : nat * nat)
  | ResizeDragEnd
  | MenuUndock (v : nat)
  | MenuClear (v : nat)
  | CloseLeaf (v : nat)
  | ChangeShellPath (value : string)
  | ChangeAutoLaunch (value : bool)
  | ChangeFontSize (value : nat)
  | ContainerResized (s : Surface) (g : nat * nat)
  | TerminalInput (s : Surface) (data : string)
  | ProcessOutput (p : nat) (data : string)
  | Tick (d : nat)
  | Fire (id : nat).

(** ** Hosts used to exercise the model *)

Definition no_saved_data : SavedData := mkSaved None None None None None.

(** A Linux desktop where node-pty loads and every spawn succeeds. *)
Definition demo_host : Host :=
  mkHost "linux" {[ "SHELL" := "/bin/bash"; "TERM" := "dumb" ]} "/vault"
         no_saved_data (100, 30) (λ _, mkAttempt None None None).

(** The same desktop, but the configured shell does not exist: [spawn] throws. *)
Definition enoent_host : Host :=
  mkHost "linux" {[ "SHELL" := "/bin/nosuchsh" ]} "/vault"
         no_saved_data (100, 30)
         (λ _, mkAttempt None None (Some "Error: spawn /bin/nosuchsh ENOENT")).

(** ** Runs used to exercise the model

    Handles and callback ids are allocated in order from 0, so the callbacks
    of a run from the initial state are known by number. *)

(** Layout ready, show the floating terminal, run its two animation frames. *)
Definition activate_floating : list Event :=
  [LayoutReady; ShowFloating; Fire 2; Fire 4].
(** Open the terminal in the right sidebar, let the 100ms of [onOpen] pass and
    run the two animation frames. *)
Definition activate_docked : list Event :=
  [LayoutReady; OpenInSidebar true; Tick 100; Fire 0; Fire 3; Fire 5].
Definition hide_then_dock : list Event :=
  activate_floating ++
  [HideFloating; OpenInSidebar true; Tick 100; Fire 7; Fire 10; Fire 12].
Definition dock_then_show : list Event :=
  [LayoutReady; OpenInSidebar true; ShowFloating].
Definition resize_then_close : list Event :=
  activate_floating ++ [ContainerResized Floating (90, 20); ClickClose].
Definition close_before_launch : list Event :=
  activate_floating ++ [Tick 100; ClickClose; Tick 200; Fire 6].
Definition reopen_before_launch : list Event :=
  activate_floating ++
  [Tick 250; ClickClose; ShowFloating; Fire 9; Fire 11;
   Tick 50; Fire 6; Tick 250; Fire 13].

(** ** Pointer handlers of the floating window

    [setupFloatingDrag] and [setupFloatingResize] compute on pixel
    measures.  JavaScript numbers are taken as rationals (no NaN, no
    infinity: the measures come from mouse events and element boxes); the
    factor [0.8] is the rational 4/5. *)
Module Pointer.
Import QArith.QArith Qminmax.
Local Open Scope Q_scope.


(** *** The resize handle *)

(** The closure variables of [setupFloatingResize], set on mousedown. *)
Record ResizeStart := mkResizeStart {
  rs_startX : Q;
  rs_startY : Q;
  rs_startWidth : Q;
  rs_startHeight : Q;
}.


(** [Math.min(Math.max(startWidth + deltaX, 300), window.innerWidth * 0.8)]
    with [deltaX = startX - e.clientX]. *)
Definition newWidth (s : ResizeStart) (clientX innerWidth : Q) : Q :=
  let deltaX := rs_startX s - clientX in
  Qmin (Qmax (rs_startWidth s + deltaX) 300) (innerWidth * (4 # 5)).

(** [Math.min(Math.max(startHeight + deltaY, 200), window.innerHeight * 0.8)]
    with [deltaY = e.clientY - startY]. *)
Definition newHeight (s : ResizeStart) (clientY innerHeight : Q) : Q :=
  let deltaY := clientY - rs_startY s in
  Qmin (Qmax (rs_startHeight s + deltaY) 200) (innerHeight * (4 # 5)).

(** *** The header drag *)

(** The closure variables of [setupFloatingDrag], whether its two listeners
    are registered on the document, and the [right] and [bottom] styles of
    the container.  The four start values are unset until the first
    mousedown. *)
Record DragState := mkDrag {
  isDragging : bool;
  drag_start : option (Q * Q * Q * Q);
  on_document : bool;
  style_right : option Q;
  style_bottom : option Q;
}.

Definition drag_init : DragState := mkDrag false None false None None.

(** mousedown on the header; [on_button] is
    [(e.target as HTMLElement).closest(".claude-terminal-btn")].  The header
    is a child of the container, so the container whose box is read exists
    when the header receives the event. *)
Definition drag_mousedown (on_button : bool) (clientX clientY : Q)
    (rect_right rect_bottom innerWidth innerHeight : Q) (st : DragState) : DragState :=
  if on_button then st
  else mkDrag true
         (Some (clientX, clientY, innerWidth - rect_right, innerHeight - rect_bottom))
         true (style_right st) (style_bottom st).

Definition onMouseMove (has_container : bool) (clientX clientY : Q) (st : DragState)
    : DragState :=
  if negb (isDragging st) || negb has_container then st
  else match drag_start st with
       | Some (startX, startY, startRight, startBottom) =>
           let deltaX := startX - clientX in
           let deltaY := startY - clientY in
           mkDrag (isDragging st) (drag_start st) (on_document st)
                  (Some (Qmax 0 (startRight + deltaX)))
                  (Some (Qmax 0 (startBottom + deltaY)))
       | None => st
       end.

Definition onMouseUp (st : DragState) : DragState :=
  mkDrag false (drag_start st) false (style_right st) (style_bottom st).

(** What the document delivers: a move or a release reaches the handlers
    only while they are registered. *)
Inductive PointerEvent :=
  | Down (on_button : bool) (clientX clientY rect_right rect_bottom innerWidth innerHeight : Q)
  | Move (clientX clientY : Q)
  | Up.

Definition is_move (e : PointerEvent) : bool :=
  match e with Move _ _ => true | _ => false end.

(** A press on the header outside its buttons. *)
Definition starts_drag (e : PointerEvent) : bool :=
  match e with Down false _ _ _ _ _ _ => true | _ => false end.

Definition deliver (has_container : bool) (st : DragState) (e : PointerEvent) : DragState :=
  match e with
  | Down b x y rr rb iw ih => drag_mousedown b x y rr rb iw ih st
  | Move x y => if on_document st then onMouseMove has_container x y st else st
  | Up => if on_document st then onMouseUp st else st
  end.

End Pointer.

Section Model.
Context (host : Host).

Abbreviation ViewM := (M (ClaudeTerminalView * World)).

(** *** Event-loop primitives *)

Definition emit (e : Effect) : M World unit :=
  modify (λ w, set_trace (λ tr, tr ++ [(now w, e)]) w).

Definition fresh : M World nat :=
  λ w, (Ok (next_id w), set_next_id S w).

Definition setTimeout (cb : Callback) (delay : nat) : M World nat :=
  id ← fresh;
  modify (λ w, set_timers (λ l, l ++ [mkTimer id (now w + delay) cb]) w);;
  mret id.

Definition clearTimeout (id : nat) : M World unit :=
  modify (set_timers (filter (λ tm, timer_id tm ≠ id))).

Definition requestAnimationFrame (cb : Callback) : M World unit :=
  setTimeout cb 0;; mret tt.

Definition whenSome {S A} (o : option A) (f : A → M S unit) : M S unit :=
  match o with
  | Some a => f a
  | None => mret tt
  end.

(** *** node-pty *)

Definition next_attempt : M World PtyAttempt :=
  n ← gets spawn_attempts;
  modify (set_spawn_attempts S);;
  mret (pty_attempt host n).

Definition require (outcome : option string) : M World unit :=
  match outcome with
  | None => mret tt
  | Some e => throw e
  end.

Definition spawn (a : PtyAttempt) (owner : Surface) (req : SpawnRequest) : M World nat :=
  match spawn_error a with
  | Some e => throw e
  | None =>
      pid ← fresh;
      emit (PtySpawn pid req);;
      modify (set_alive (<[pid := owner]>));;
      mret pid
  end.

Definition kill (pid : nat) : M World unit :=
  emit (PtyKill pid);;
  modify (set_alive (delete pid)).

(** *** ClaudeTerminalPlugin: the floating session *)

Definition createFloatingContainer : M World unit :=
  modify (set_plugin (set_floatingContainer
            (Some (mkContainer true [] (initial_grid host))))).

(** [this.floatingPtyProcess?.resize(cols, rows)], the listener that
    [startFloatingPty] registers with [onResize]. *)
Definition floatingOnResize (g : nat * nat) : M World unit :=
  p ← gets plugin;
  whenSome (floatingPtyProcess p) (λ pid, emit (PtyResize pid g.1 g.2)).

(** [this.floatingPtyProcess?.write(data)], the listener registered with
    [onData] on the floating terminal. *)
Definition floatingOnData (data : string) : M World unit :=
  p ← gets plugin;
  whenSome (floatingPtyProcess p) (λ pid, emit (PtyWrite Keyboard pid data)).

(** [fit()] of the addon loaded into the floating terminal: when the grid
    the content box affords differs from the terminal's, the terminal is
    resized and its [onResize] listeners run. *)
Definition floatingFit (f : nat) : M World unit :=
  emit (FitAddonFit f);;
  p ← gets plugin;
  match floatingTerminal p, floatingContainer p with
  | Some t, Some c =>
      if decide ((cols t, rows t) = c_grid c) then mret tt
      else
        modify (set_plugin (set_floatingTerminal (Some (resized (c_grid c) t))));;
        repeatM (onResize t) (floatingOnResize (c_grid c))
  | _, _ => mret tt
  end.

Definition startFloatingPty : M World unit :=
  p ← gets plugin;
  match floatingTerminal p with
  | None => mret tt
  | Some _ =>
      try_catch
        (a ← next_attempt;
         try_catch (require (local_module a)) (λ _, require (global_module a));;
         p ← gets plugin;
         t ← deref "floatingTerminal" (floatingTerminal p);
         pid ← spawn a Floating
                 {| sp_file := shellPath (settings p);
                    sp_args := [];
                    sp_name := "xterm-256color";
                    sp_cols := cols t;
                    sp_rows := rows t;
                    sp_cwd := basePath host;
                    sp_env := spawn_env host |};
         modify (set_plugin (set_floatingPtyProcess (Some pid)));;
         p ← gets plugin;
         t ← deref "floatingTerminal" (floatingTerminal p);
         modify (set_plugin (set_floatingTerminal (Some (listening t))));;
         p ← gets plugin;
         if autoLaunchClaude (settings p)
         then setTimeout FloatingAutoLaunch 300;; mret tt
         else mret tt)
        (λ error,
           emit (ConsoleError failed_to_start error);;
           p ← gets plugin;
           whenSome (floatingTerminal p) (λ t, emit (TerminalWrite (t_id t) error_line)))
  end.

(** The callback of the floating [ResizeObserver]. *)
Definition floatingObserved : M World unit :=
  p ← gets plugin;
  whenSome (floatingFitDebounceTimer p) clearTimeout;;
  id ← setTimeout FloatingFitDebounce 50;
  modify (set_plugin (set_floatingFitDebounceTimer (Some id))).

Definition initializeFloatingTerminal : M World unit :=
  p ← gets plugin;
  match floatingContainer p with
  | None => mret tt
  | Some c =>
      tid ← fresh;
      emit (TerminalNew tid (fontSize (settings p)));;
      modify (set_plugin (set_floatingTerminal (Some (mkTerminal tid 80 24 0 0))));;
      fid ← fresh;
      modify (set_plugin (set_floatingFitAddon (Some fid)));;
      p ← gets plugin;
      t ← deref "floatingTerminal" (floatingTerminal p);
      emit (TerminalLoadAddon (t_id t) fid);;
      emit (TerminalOpen (t_id t) Floating);;
      modify (set_plugin (set_floatingContainer
                (Some (mkContainer (is_hidden c) (content c ++ [t_id t]) (c_grid c)))));;
      requestAnimationFrame FloatingFrameOuter;;
      oid ← fresh;
      modify (set_plugin (set_floatingResizeObserver (Some oid)));;
      emit (ObserverObserve oid Floating)
  end.

Definition floatingFrameOuter : M World unit :=
  requestAnimationFrame FloatingFrameInner.

Definition floatingFrameInner : M World unit :=
  p ← gets plugin;
  match floatingFitAddon p, floatingTerminal p with
  | Some f, Some _ =>
      floatingFit f;;
      startFloatingPty;;
      p ← gets plugin;
      t ← deref "floatingTerminal" (floatingTerminal p);
      emit (TerminalFocus (t_id t))
  | _, _ => mret tt
  end.

Definition floatingFitDebounce : M World unit :=
  p ← gets plugin;
  match floatingFitAddon p, floatingTerminal p, floatingPtyProcess p with
  | Some f, Some _, Some _ =>
      floatingFit f;;
      p ← gets plugin;
      t ← deref "floatingTerminal" (floatingTerminal p);
      emit (TerminalScrollToBottom (t_id t))
  | _, _, _ => mret tt
  end.

Definition floatingAutoLaunch : M World unit :=
  p ← gets plugin;
  whenSome (floatingPtyProcess p) (λ pid, emit (PtyWrite AutoLaunch pid launch_command)).

Definition destroyFloatingTerminal : M World unit :=
  p ← gets plugin;
  whenSome (floatingResizeObserver p) (λ o, emit (ObserverDisconnect o));;
  modify (set_plugin (set_floatingResizeObserver None));;
  p ← gets plugin;
  whenSome (floatingPtyProcess p) (λ pid,
    kill pid;;
    modify (set_plugin (set_floatingPtyProcess None)));;
  p ← gets plugin;
  whenSome (floatingTerminal p) (λ t,
    emit (TerminalDispose (t_id t));;
    modify (set_plugin (set_floatingTerminal None)));;
  modify (set_plugin (set_floatingFitAddon None));;
  p ← gets plugin;
  whenSome (floatingContainer p) (λ c,
    modify (set_plugin (set_floatingContainer
              (Some (mkContainer (is_hidden c) [] (c_grid c)))))).

Definition showFloatingTerminal : M World unit :=
  p ← gets plugin;
  match floatingContainer p with
  | None => mret tt
  | Some c =>
      modify (set_plugin (set_floatingContainer
                (Some (mkContainer false (content c) (c_grid c)))));;
      modify (set_plugin (set_isFloatingVisible true));;
      p ← gets plugin;
      match floatingTerminal p with
      | None => initializeFloatingTerminal
      | Some _ =>
          whenSome (floatingFitAddon p) floatingFit;;
          p ← gets plugin;
          t ← deref "floatingTerminal" (floatingTerminal p);
          emit (TerminalScrollToBottom (t_id t));;
          emit (TerminalFocus (t_id t))
      end
  end.

Definition hideFloatingTerminal : M World unit :=
  p ← gets plugin;
  match floatingContainer p with
  | None => mret tt
  | Some c =>
      modify (set_plugin (set_floatingContainer
                (Some (mkContainer true (content c) (c_grid c)))));;
      modify (set_plugin (set_isFloatingVisible false))
  end.

Definition toggleFloatingTerminal : M World unit :=
  p ← gets plugin;
  if isFloatingVisible p then hideFloatingTerminal else showFloatingTerminal.

(** *** ClaudeTerminalView: a docked session

    A method of view [i] runs against the view object and the world. *)

Definition liftW {A} (m : M World A) : ViewM A :=
  λ s, match m s.2 with
       | (r, w') => (r, (s.1, w'))
       end.
Definition getv {A} (f : ClaudeTerminalView → A) : ViewM A := gets (λ s, f s.1).
Definition setv (f : ClaudeTerminalView → ClaudeTerminalView) : ViewM unit :=
  modify (λ s, (f s.1, s.2)).

Definition withView (i : nat) (m : ViewM unit) : M World unit :=
  λ w, match views w !! i with
       | None => (Ok tt, w)
       | Some v =>
           match m (v, w) with
           | (r, (v', w')) => (r, set_views (<[i := v']>) w')
           end
       end.

(** [this.ptyProcess?.resize(cols, rows)] *)
Definition viewOnResize (g : nat * nat) : ViewM unit :=
  pty ← getv ptyProcess;
  whenSome pty (λ pid, liftW (emit (PtyResize pid g.1 g.2))).

(** [this.ptyProcess?.write(data)] *)
Definition viewOnData (data : string) : ViewM unit :=
  pty ← getv ptyProcess;
  whenSome pty (λ pid, liftW (emit (PtyWrite Keyboard pid data))).

Definition viewFit (f : nat) : ViewM unit :=
  liftW (emit (FitAddonFit f));;
  v ← gets fst;
  match terminal v with
  | Some t =>
      if decide ((cols t, rows t) = v_grid v) then mret tt
      else
        setv (set_terminal (Some (resized (v_grid v) t)));;
        repeatM (onResize t) (viewOnResize (v_grid v))
  | None => mret tt
  end.

Definition startPty (i : nat) : ViewM unit :=
  t ← getv terminal;
  match t with
  | None => mret tt
  | Some _ =>
      try_catch
        (a ← liftW next_attempt;
         try_catch (liftW (require (local_module a)))
                   (λ _, liftW (require (global_module a)));;
         s ← liftW (gets (λ w, settings (plugin w)));
         t ← getv terminal;
         t ← deref "terminal" t;
         pid ← liftW (spawn a (Docked i)
                 {| sp_file := shellPath s;
                    sp_args := [];
                    sp_name := "xterm-256color";
                    sp_cols := cols t;
                    sp_rows := rows t;
                    sp_cwd := basePath host;
                    sp_env := spawn_env host |});
         setv (set_ptyProcess (Some pid));;
         t ← getv terminal;
         t ← deref "terminal" t;
         setv (set_terminal (Some (listening t)));;
         s ← liftW (gets (λ w, settings (plugin w)));
         if autoLaunchClaude s
         then liftW (setTimeout (ViewAutoLaunch i) 300);; mret tt
         else mret tt)
        (λ error,
           liftW (emit (ConsoleError failed_to_start error));;
           t ← getv terminal;
           whenSome t (λ t, liftW (emit (TerminalWrite (t_id t) error_line)));;
           t ← getv terminal;
           whenSome t (λ t, liftW (emit (TerminalWrite (t_id t) (error_text error)))))
  end.

Definition viewObserved (i : nat) : ViewM unit :=
  tm ← getv fitDebounceTimer;
  whenSome tm (λ id, liftW (clearTimeout id));;
  id ← liftW (setTimeout (ViewFitDebounce i) 50);
  setv (set_fitDebounceTimer (Some id)).

Definition initializeTerminal (i : nat) : ViewM unit :=
  s ← liftW (gets (λ w, settings (plugin w)));
  tid ← liftW fresh;
  liftW (emit (TerminalNew tid (fontSize s)));;
  setv (set_terminal (Some (mkTerminal tid 80 24 0 0)));;
  fid ← liftW fresh;
  setv (set_fitAddon (Some fid));;
  t ← getv terminal;
  t ← deref "terminal" t;
  liftW (emit (TerminalLoadAddon (t_id t) fid));;
  liftW (emit (TerminalOpen (t_id t) (Docked i)));;
  liftW (requestAnimationFrame (ViewFrameOuter i));;
  oid ← liftW fresh;
  setv (set_resizeObserver (Some oid));;
  liftW (emit (ObserverObserve oid (Docked i))).

Definition onOpen (i : nat) : ViewM unit :=
  liftW (setTimeout (ViewOpenTimeout i) 100);; mret tt.

Definition viewFrameOuter (i : nat) : M World unit :=
  requestAnimationFrame (ViewFrameInner i).

Definition viewFrameInner (i : nat) : ViewM unit :=
  v ← gets fst;
  match fitAddon v, terminal v with
  | Some f, Some _ =>
      viewFit f;;
      startPty i;;
      t ← getv terminal;
      t ← deref "terminal" t;
      liftW (emit (TerminalFocus (t_id t)))
  | _, _ => mret tt
  end.

Definition viewFitDebounce : ViewM unit :=
  v ← gets fst;
  match fitAddon v, terminal v, ptyProcess v with
  | Some f, Some _, Some _ =>
      viewFit f;;
      t ← getv terminal;
      t ← deref "terminal" t;
      liftW (emit (TerminalScrollToBottom (t_id t)))
  | _, _, _ => mret tt
  end.

Definition viewAutoLaunch : ViewM unit :=
  pty ← getv ptyProcess;
  whenSome pty (λ pid, liftW (emit (PtyWrite AutoLaunch pid launch_command))).

Definition sendClear : ViewM unit :=
  pty ← getv ptyProcess;
  whenSome pty (λ pid, liftW (emit (PtyWrite ClearCommand pid clear_command))).

Definition destroyTerminal : ViewM unit :=
  o ← getv resizeObserver;
  whenSome o (λ o, liftW (emit (ObserverDisconnect o)));;
  setv (set_resizeObserver None);;
  pty ← getv ptyProcess;
  whenSome pty (λ pid,
    liftW (kill pid);;
    setv (set_ptyProcess None));;
  t ← getv terminal;
  whenSome t (λ t,
    liftW (emit (TerminalDispose (t_id t)));;
    setv (set_terminal None));;
  setv (set_fitAddon None).

Definition onClose : ViewM unit := destroyTerminal.

(** *** Mode coordination *)

(** The host closes one leaf: [onClose] runs and the leaf leaves the
    workspace.  The view object stays reachable from its pending callbacks. *)
Definition detachLeaf (i : nat) : M World unit :=
  withView i (
    a ← getv attached;
    if (a : bool) then onClose;; setv (set_attached false) else mret tt).

Definition detachLeavesOfType : M World unit :=
  n ← gets (λ w, length (views w));
  forM (seq 0 n) detachLeaf.

(** [rightLeaf.setViewState({type: VIEW_TYPE_CLAUDE_TERMINAL, ...})]: the
    registered factory builds a new view on the leaf and [onOpen] runs. *)
Definition setViewState : M World unit :=
  i ← gets (λ w, length (views w));
  modify (set_views (λ l, l ++ [fresh_view host]));;
  withView i (onOpen i).

Definition openInSidebar (rightLeaf : bool) : M World unit :=
  p ← gets plugin;
  (if isFloatingVisible p
   then hideFloatingTerminal;; destroyFloatingTerminal
   else mret tt);;
  if rightLeaf then setViewState else mret tt.

Definition undockToFloating : M World unit :=
  detachLeavesOfType;;
  showFloatingTerminal.

(** *** Handlers of the floating header and of the settings tab *)

Definition clickClear : M World unit :=
  p ← gets plugin;
  whenSome (floatingPtyProcess p) (λ pid, emit (PtyWrite ClearCommand pid clear_command)).

Definition clickClose : M World unit :=
  hideFloatingTerminal;;
  destroyFloatingTerminal.

Definition saveSettings : M World unit :=
  p ← gets plugin;
  emit (SaveData (settings p)).

Definition resizeDragMove (newWidth newHeight : nat) (g : nat * nat) : M World unit :=
  p ← gets plugin;
  match floatingContainer p with
  | None => mret tt
  | Some c =>
      modify (set_plugin (set_floatingContainer
                (Some (mkContainer (is_hidden c) (content c) g))));;
      modify (set_plugin (λ p, set_settings
                (mkSettings (shellPath (settings p)) (autoLaunchClaude (settings p))
                            (fontSize (settings p)) newWidth newHeight) p));;
      p ← gets plugin;
      match floatingFitAddon p, floatingTerminal p with
      | Some f, Some _ =>
          floatingFit f;;
          p ← gets plugin;
          t ← deref "floatingTerminal" (floatingTerminal p);
          emit (TerminalScrollToBottom (t_id t))
      | _, _ => mret tt
      end
  end.

Definition changeShellPath (value : string) : M World unit :=
  modify (set_plugin (λ p, set_settings
            (mkSettings value (autoLaunchClaude (settings p)) (fontSize (settings p))
                        (floatingWidth (settings p)) (floatingHeight (settings p))) p));;
  saveSettings.

Definition changeAutoLaunch (value : bool) : M World unit :=
  modify (set_plugin (λ p, set_settings
            (mkSettings (shellPath (settings p)) value (fontSize (settings p))
                        (floatingWidth (settings p)) (floatingHeight (settings p))) p));;
  saveSettings.

Definition changeFontSize (value : nat) : M World unit :=
  modify (set_plugin (λ p, set_settings
            (mkSettings (shellPath (settings p)) (autoLaunchClaude (settings p)) value
                        (floatingWidth (settings p)) (floatingHeight (settings p))) p));;
  saveSettings.

(** *** Host notifications *)

Definition containerResized (s : Surface) (g : nat * nat) : M World unit :=
  match s with
  | Floating =>
      p ← gets plugin;
      whenSome (floatingContainer p) (λ c,
        modify (set_plugin (set_floatingContainer
                  (Some (mkContainer (is_hidden c) (content c) g))));;
        whenSome (floatingResizeObserver p) (λ _, floatingObserved))
  | Docked i =>
      withView i (
        setv (set_v_grid g);;
        o ← getv resizeObserver;
        whenSome o (λ _, viewObserved i))
  end.

(** Keystrokes reach every [onData] listener of the surface's terminal. *)
Definition terminalInput (s : Surface) (data : string) : M World unit :=
  match s with
  | Floating =>
      p ← gets plugin;
      whenSome (floatingTerminal p) (λ t, repeatM (onData t) (floatingOnData data))
  | Docked i =>
      withView i (
        t ← getv terminal;
        whenSome t (λ t, repeatM (onData t) (viewOnData data)))
  end.

(** Output of a running process reaches its [onData] listener. *)
Definition processOutput (pid : nat) (data : string) : M World unit :=
  owner ← gets (λ w, alive w !! pid);
  match owner with
  | None => mret tt
  | Some Floating =>
      p ← gets plugin;
      whenSome (floatingTerminal p) (λ t, emit (TerminalWrite (t_id t) data))
  | Some (Docked i) =>
      withView i (
        t ← getv terminal;
        whenSome t (λ t, liftW (emit (TerminalWrite (t_id t) data))))
  end.

Definition run_callback (cb : Callback) : M World unit :=
  match cb with
  | ViewOpenTimeout i => withView i (initializeTerminal i)
  | ViewFrameOuter i => viewFrameOuter i
  | ViewFrameInner i => withView i (viewFrameInner i)
  | ViewFitDebounce i => withView i viewFitDebounce
  | ViewAutoLaunch i => withView i viewAutoLaunch
  | FloatingFrameOuter => floatingFrameOuter
  | FloatingFrameInner => floatingFrameInner
  | FloatingFitDebounce => floatingFitDebounce
  | FloatingAutoLaunch => floatingAutoLaunch
  end.

Definition find_timer (id : nat) (l : list Timer) : option Timer :=
  head (filter (λ tm, timer_id tm = id) l).

(** A pending callback runs once, and not before it is due. *)
Definition fire (id : nat) : M World unit :=
  w ← gets (λ w : World, w);
  match find_timer id (timers w) with
  | None => mret tt
  | Some tm =>
      if decide (due tm ≤ now w)
      then clearTimeout id;; run_callback (callback tm)
      else mret tt
  end.

Definition when_attached (i : nat) (m : M World unit) : M World unit :=
  w ← gets (λ w : World, w);
  match views w !! i with
  | Some v => if attached v then m else mret tt
  | None => mret tt
  end.

Definition step (e : Event) : M World unit :=
  match e with
  | LayoutReady =>
      p ← gets plugin;
      match floatingContainer p with
      | None => createFloatingContainer
      | Some _ => mret tt
      end
  | ToggleFloating => toggleFloatingTerminal
  | ShowFloating => showFloatingTerminal
  | HideFloating => hideFloatingTerminal
  | OpenInSidebar rightLeaf => openInSidebar rightLeaf
  | ClickClear =>
      p ← gets plugin; whenSome (floatingContainer p) (λ _, clickClear)
  | ClickClose =>
      p ← gets plugin; whenSome (floatingContainer p) (λ _, clickClose)
  | ResizeDragMove newWidth newHeight g => resizeDragMove newWidth newHeight g
  | ResizeDragEnd =>
      p ← gets plugin; whenSome (floatingContainer p) (λ _, saveSettings)
  | MenuUndock i => when_attached i undockToFloating
  | MenuClear i => when_attached i (withView i sendClear)
  | CloseLeaf i => detachLeaf i
  | ChangeShellPath value => changeShellPath value
  | ChangeAutoLaunch value => changeAutoLaunch value
  | ChangeFontSize value => changeFontSize value
  | ContainerResized s g => containerResized s g
  | TerminalInput s data => terminalInput s data
  | ProcessOutput pid data => processOutput pid data
  | Tick d => modify (set_now (λ t, t + d))
  | Fire id => fire id
  end.

(** An exception that escapes a handler is reported and the loop goes on. *)
Definition exec (w : World) (e : Event) : World :=
  match step e w with
  | (Ok _, w') => w'
  | (Throw err, w') => set_uncaught (λ l, l ++ [err]) w'
  end.

Definition run (es : list Event) (w : World) : World := foldl exec w es.

Definition reachable (w : World) : Prop := ∃ es, w = run es (init host).

(** *** A prompt event loop

    [run] leaves the firing of callbacks to explicit [Fire] events.  A
    prompt loop runs each callback at the moment it falls due, earliest
    first. *)






(** *** Unload, and settings across restarts *)

(** [onunload]: the floating session is destroyed, the container element is
    taken out of the document (the field keeps the element, and the model
    keeps no record of the document), and every leaf of the view type is
    detached. *)
Definition onunload : M World unit :=
  destroyFloatingTerminal;;
  p ← gets plugin;
  whenSome (floatingContainer p) (λ _, mret tt);;
  detachLeavesOfType.

(** [saveData(this.settings)] stores the whole settings object; [loadData]
    hands it back at the next start. *)
Definition persisted (s : ClaudeTerminalSettings) : SavedData :=
  mkSaved (Some (shellPath s)) (Some (autoLaunchClaude s)) (Some (fontSize s))
          (Some (floatingWidth s)) (Some (floatingHeight s)).

(** The host [h] at a later start, with [d] in the data file. *)
Definition restarted (h : Host) (d : SavedData) : Host :=
  mkHost (platform h) (process_env h) (basePath h) d (initial_grid h) (pty_attempt h).

(** * Specification vocabulary *)

(** [pres P m]: from a state satisfying [P], [m] returns normally in a state
    satisfying [P]. *)
Definition pres (P : World → Prop) (m : M World unit) : Prop :=
  ∀ w, P w → ∃ w', m w = (Ok tt, w') ∧ P w'.

(** Optional handles, as truth values. *)
Definition isSome {A} (o : option A) : bool :=
  match o with
  | Some _ => true
  | None => false
  end.

Definition view_coherent (v : ClaudeTerminalView) : Prop :=
  (isSome (ptyProcess v) = true → isSome (terminal v) = true) ∧
  isSome (fitAddon v) = isSome (terminal v) ∧
  isSome (resizeObserver v) = isSome (terminal v).

Definition floating_coherent (p : ClaudeTerminalPlugin) : Prop :=
  (isSome (floatingPtyProcess p) = true → isSome (floatingTerminal p) = true) ∧
  isSome (floatingFitAddon p) = isSome (floatingTerminal p) ∧
  isSome (floatingResizeObserver p) = isSome (floatingTerminal p) ∧
  (isSome (floatingTerminal p) = true → isSome (floatingContainer p) = true) ∧
  match floatingContainer p with
  | Some c => is_hidden c = negb (isFloatingVisible p)
  | None => isFloatingVisible p = false
  end.

Definition coherent (w : World) : Prop :=
  uncaught w = [] ∧ floating_coherent (plugin w) ∧ Forall view_coherent (views w).

(** All four handles of a session are null. *)
Definition floating_handles_null (p : ClaudeTerminalPlugin) : Prop :=
  floatingTerminal p = None ∧ floatingPtyProcess p = None ∧
  floatingFitAddon p = None ∧ floatingResizeObserver p = None.

Definition view_handles_null (v : ClaudeTerminalView) : Prop :=
  terminal v = None ∧ ptyProcess v = None ∧
  fitAddon v = None ∧ resizeObserver v = None.

(** The spawn contract in the words of the specification: configured shell,
    no arguments, pty type xterm-256color, the surface's current grid, the
    vault root as working directory, the inherited environment with TERM
    and COLORTERM forced. *)
Definition contract_request (file : string) (t : Terminal) : SpawnRequest :=
  {| sp_file := file;
     sp_args := [];
     sp_name := "xterm-256color";
     sp_cols := cols t;
     sp_rows := rows t;
     sp_cwd := basePath host;
     sp_env := <["COLORTERM" := "truecolor"]>
                 (<["TERM" := "xterm-256color"]> (process_env host)) |}.

(** The pty module loads (locally or globally) and [spawn] does not throw. *)
Definition attempt_ok (a : PtyAttempt) : Prop :=
  (local_module a = None ∨ global_module a = None) ∧ spawn_error a = None.

(** The activation fails with exception [e]: neither module loads, or
    [spawn] throws. *)
Definition attempt_fails (a : PtyAttempt) (e : string) : Prop :=
  (local_module a ≠ None ∧ global_module a = Some e) ∨
  ((local_module a = None ∨ global_module a = None) ∧ spawn_error a = Some e).

(** The handle an effect brings into existence, if any. *)
Definition created (e : Effect) : option nat :=
  match e with
  | TerminalNew t _ => Some t
  | PtySpawn p _ => Some p
  | _ => None
  end.

(** What every spawn request has, whatever the settings and the grid. *)
Definition fixed_contract (r : SpawnRequest) : Prop :=
  sp_args r = [] ∧ sp_name r = "xterm-256color" ∧
  sp_cwd r = basePath host ∧ sp_env r = spawn_env host.

Definition spawn_contract_ok (e : Effect) : Prop :=
  match e with
  | PtySpawn _ r => fixed_contract r
  | _ => True
  end.

(** Handles are allocated from [next_id]: everything in use lies below it. *)
Definition ids_ok (w : World) : Prop :=
  Forall (λ tm, timer_id tm < next_id w) (timers w) ∧
  match floatingTerminal (plugin w) with
  | Some t => t_id t < next_id w
  | None => True
  end ∧
  match floatingPtyProcess (plugin w) with
  | Some p => p < next_id w
  | None => True
  end ∧
  Forall (λ x, match created x.2 with Some i => i < next_id w | None => True end)
         (trace w) ∧
  Forall (λ x, spawn_contract_ok x.2) (trace w).

(** Visibility and liveness of the two kinds of session. *)
Definition floating_visible (w : World) : Prop :=
  isFloatingVisible (plugin w) = true.
Definition docked_visible (w : World) : Prop :=
  ∃ i v, views w !! i = Some v ∧ attached v = true.
Definition floating_live (w : World) : Prop :=
  floatingTerminal (plugin w) ≠ None ∧ floatingPtyProcess (plugin w) ≠ None.
Definition docked_live (w : World) : Prop :=
  ∃ i v, views w !! i = Some v ∧ terminal v ≠ None ∧ ptyProcess v ≠ None.

(** The mutual exclusion of the claim: never both visible, never both live. *)
Definition mutually_exclusive (w : World) : Prop :=
  ¬ (floating_visible w ∧ docked_visible w) ∧ ¬ (floating_live w ∧ docked_live w).

(** What one successful activation of the floating session does about
    auto-launch: see the statement of claim C7. *)
Definition floating_launch_spec (w : World) : Prop :=
  ∃ w1, startFloatingPty w = (Ok tt, w1) ∧
    floatingPtyProcess (plugin w1) = Some (next_id w) ∧
    if autoLaunchClaude (settings (plugin w)) then
      timers w1 = timers w ++ [mkTimer (S (next_id w)) (now w + 300) FloatingAutoLaunch] ∧
      (∀ d, d < 300 → exec (exec w1 (Tick d)) (Fire (S (next_id w))) = exec w1 (Tick d)) ∧
      (∀ d, 300 ≤ d →
         let w2 := exec (exec w1 (Tick d)) (Fire (S (next_id w))) in
         trace w2 = trace w1 ++
           [(now w + d, PtyWrite AutoLaunch (next_id w) launch_command)] ∧
         timers w2 = timers w ∧
         exec w2 (Fire (S (next_id w))) = w2) ∧
      (∀ d, floatingContainer (plugin w) ≠ None →
         let w2 := exec (exec w1 ClickClose) (Tick d) in
         trace (exec w2 (Fire (S (next_id w)))) = trace w2)
    else timers w1 = timers w.

Definition docked_launch_spec (w : World) (i : nat) (v : ClaudeTerminalView) : Prop :=
  ∃ w1, withView i (startPty i) w = (Ok tt, w1) ∧
    (∃ v1, views w1 !! i = Some v1 ∧ ptyProcess v1 = Some (next_id w)) ∧
    if autoLaunchClaude (settings (plugin w)) then
      timers w1 = timers w ++ [mkTimer (S (next_id w)) (now w + 300) (ViewAutoLaunch i)] ∧
      (∀ d, d < 300 → exec (exec w1 (Tick d)) (Fire (S (next_id w))) = exec w1 (Tick d)) ∧
      (∀ d, 300 ≤ d →
         let w2 := exec (exec w1 (Tick d)) (Fire (S (next_id w))) in
         trace w2 = trace w1 ++
           [(now w + d, PtyWrite AutoLaunch (next_id w) launch_command)] ∧
         timers w2 = timers w ∧
         exec w2 (Fire (S (next_id w))) = w2) ∧
      (∀ d, attached v = true →
         let w2 := exec (exec w1 (CloseLeaf i)) (Tick d) in
         trace (exec w2 (Fire (S (next_id w)))) = trace w2)
    else timers w1 = timers w.

Definition is_launch_callback (cb : Callback) : bool :=
  match cb with
  | ViewAutoLaunch _ | FloatingAutoLaunch => true
  | _ => false
  end.

Definition is_injection (e : Effect) : bool :=
  match e with
  | PtyWrite AutoLaunch _ _ => true
  | _ => false
  end.

(** Auto-launch is off, nothing is scheduled and nothing was injected. *)
Definition never_enabled (w : World) : Prop :=
  autoLaunchClaude (settings (plugin w)) = false ∧
  Forall (λ tm, is_launch_callback (callback tm) = false) (timers w) ∧
  Forall (λ x, is_injection x.2 = false) (trace w).





(** Observations on a trace: the texts written into terminals, the spawns
    and the auto-launch injections with their times and processes. *)
Definition terminal_writes (tr : list (nat * Effect)) : list string :=
  omap (λ x, match x.2 with TerminalWrite _ s => Some s | _ => None end) tr.
Definition spawns (tr : list (nat * Effect)) : list (nat * nat) :=
  omap (λ x, match x.2 with PtySpawn p _ => Some (x.1, p) | _ => None end) tr.
Definition injections (tr : list (nat * Effect)) : list (nat * nat) :=
  omap (λ x, match x.2 with
             | PtyWrite AutoLaunch p _ => Some (x.1, p)
             | _ => None
             end) tr.

(** ** Vocabulary for further properties *)

(** The data file after a run: what the last [saveData] of the trace stored,
    or what was there at start-up. *)
Definition data_file (w : World) : SavedData :=
  foldl (λ d x, match x.2 with SaveData s => persisted s | _ => d end)
        (loadData host) (trace w).

(** Two settings records agree on the fields of the settings tab. *)
Definition same_tab_fields (a b : ClaudeTerminalSettings) : Prop :=
  shellPath a = shellPath b ∧ autoLaunchClaude a = autoLaunchClaude b ∧
  fontSize a = fontSize b.

(** What a fit does at time [T] on terminal [t] when the box affords grid
    [g]: the fit, a process resize per listener if the grid changed and a
    process is held, a scroll to the bottom. *)
Definition fit_and_scroll (T f : nat) (t : Terminal) (pty : option nat) (g : nat * nat)
    : list (nat * Effect) :=
  (T, FitAddonFit f) ::
  (if decide ((cols t, rows t) = g) then []
   else match pty with
        | Some p => replicate (onResize t) (T, PtyResize p g.1 g.2)
        | None => []
        end) ++
  [(T, TerminalScrollToBottom (t_id t))].

(** The events by which the user asks for a terminal. *)
Definition asks_for_terminal (e : Event) : bool :=
  match e with
  | ShowFloating | ToggleFloating | OpenInSidebar true => true
  | _ => false
  end.

(** Nothing has been built yet: no session, no view, no callback, no
    process, and no terminal or process was ever created. *)
Definition idle (w : World) : Prop :=
  floating_handles_null (plugin w) ∧ isFloatingVisible (plugin w) = false ∧
  views w = [] ∧ timers w = [] ∧ alive w = ∅ ∧ uncaught w = [] ∧
  Forall (λ x, created x.2 = None) (trace w).

(** Every process handle a session holds is that of a live process spawned
    for that session. *)
Definition held_alive (w : World) : Prop :=
  (∀ p, floatingPtyProcess (plugin w) = Some p → alive w !! p = Some Floating) ∧
  (∀ i v p, views w !! i = Some v → ptyProcess v = Some p →
            alive w !! p = Some (Docked i)) ∧
  (∀ p s, alive w !! p = Some s → p < next_id w).

(** [keeps Q m]: from a coherent state satisfying [Q], if [m] returns
    normally it does so in a state satisfying [Q]. *)
Definition keeps (Q : World → Prop) (m : M World unit) : Prop :=
  ∀ w, coherent w → Q w →
       match m w with
       | (Ok _, w') => Q w'
       | (Throw _, _) => True
       end.

(** The settings tab's fields would be loaded back as they are now. *)
Definition tab_saved (w : World) : Prop :=
  same_tab_fields (loadSettings (restarted host (data_file w))) (settings (plugin w)).

(** The state in which [startFloatingPty] leaves [w] when the floating
    terminal is [t] and the attempt succeeds. *)
Definition floating_started (t : Terminal) (w : World) : World :=
  let p := plugin w in
  let pid := next_id w in
  mkWorld
    (mkPlugin (settings p) (floatingContainer p) (Some (listening t))
              (floatingFitAddon p) (Some pid) (floatingResizeObserver p)
              (isFloatingVisible p) (floatingFitDebounceTimer p))
    (views w) (now w)
    (if autoLaunchClaude (settings p)
     then timers w ++ [mkTimer (S pid) (now w + 300) FloatingAutoLaunch]
     else timers w)
    (if autoLaunchClaude (settings p) then S (S pid) else S pid)
    (S (spawn_attempts w)) (<[pid := Floating]> (alive w))
    (trace w ++ [(now w, PtySpawn pid (contract_request (shellPath (settings p)) t))])
    (uncaught w).

(** * Symbolic evaluation *)

Ltac munfold :=
  cbv beta iota zeta delta
    [step exec fire run_callback when_attached
     toggleFloatingTerminal showFloatingTerminal hideFloatingTerminal
     initializeFloatingTerminal destroyFloatingTerminal startFloatingPty
     floatingFrameOuter floatingFrameInner floatingFitDebounce floatingAutoLaunch
     floatingObserved floatingFit createFloatingContainer
     openInSidebar undockToFloating setViewState detachLeaf
     clickClear clickClose saveSettings resizeDragMove changeShellPath changeAutoLaunch
     changeFontSize containerResized terminalInput processOutput
     withView liftW getv setv viewFit startPty viewObserved
     initializeTerminal onOpen viewFrameOuter viewFrameInner viewFitDebounce
     viewAutoLaunch sendClear destroyTerminal onClose
     emit fresh setTimeout clearTimeout requestAnimationFrame whenSome
     next_attempt require spawn kill
     mbind mret M_bind M_ret throw try_catch gets modify deref
     set_plugin set_views set_now set_timers set_next_id set_spawn_attempts
     set_alive set_trace set_uncaught
     set_settings set_floatingContainer set_floatingTerminal set_floatingFitAddon
     set_floatingPtyProcess set_floatingResizeObserver set_isFloatingVisible
     set_floatingFitDebounceTimer
     set_terminal set_fitAddon set_ptyProcess set_resizeObserver set_fitDebounceTimer
     set_attached set_v_grid resized listening
     plugin views now timers next_id spawn_attempts alive trace uncaught
     settings floatingContainer floatingTerminal floatingFitAddon floatingPtyProcess
     floatingResizeObserver isFloatingVisible floatingFitDebounceTimer
     terminal fitAddon ptyProcess resizeObserver fitDebounceTimer attached v_grid
     t_id cols rows onData onResize is_hidden content c_grid
     shellPath autoLaunchClaude fontSize floatingWidth floatingHeight
     local_module global_module spawn_error
     fst snd].

Ltac destruct_records :=
  repeat match goal with
         | x : World |- _ => destruct x
         | x : ClaudeTerminalPlugin |- _ => destruct x
         | x : ClaudeTerminalView |- _ => destruct x
         | x : Terminal |- _ => destruct x
         | x : Container |- _ => destruct x
         | x : ClaudeTerminalSettings |- _ => destruct x
         | x : PtyAttempt |- _ => destruct x
         | x : Timer |- _ => destruct x
         | x : (_ * _)%type |- _ => destruct x
         end.

(** Split on the scrutinee that blocks evaluation. *)
Ltac case_stuck :=
  match goal with
  | |- context [match ?x with _ => _ end] => is_var x; destruct x
  | |- context [match decide ?P with _ => _ end] => destruct (decide P)
  | |- context [match ?l !! ?i with _ => _ end] => destruct (l !! i) eqn:?
  | |- context [match pty_attempt ?h ?n with _ => _ end] => destruct (pty_attempt h n) eqn:?
  | |- context [match find_timer ?i ?l with _ => _ end] => destruct (find_timer i l) eqn:?
  end.

Lemma repeatM_floatingOnResize n g w :
  repeatM n (floatingOnResize g) w =
  (Ok tt, set_trace (λ tr, tr ++ match floatingPtyProcess (plugin w) with
                                 | Some pid => replicate n (now w, PtyResize pid g.1 g.2)
                                 | None => []
                                 end) w).
Proof.
  revert w. induction n as [|n IH]; intros w.
  - destruct_records. munfold. case_stuck; by rewrite app_nil_r.
  - cbn [repeatM]. unfold mbind, M_bind at 1. unfold floatingOnResize at 1.
    destruct_records. munfold. case_stuck; rewrite IH; munfold; cbn [replicate]; try done.
    by rewrite <- app_assoc.
Qed.

Lemma repeatM_floatingOnData n data w :
  repeatM n (floatingOnData data) w =
  (Ok tt, set_trace (λ tr, tr ++ match floatingPtyProcess (plugin w) with
                                 | Some pid => replicate n (now w, PtyWrite Keyboard pid data)
                                 | None => []
                                 end) w).
Proof.
  revert w. induction n as [|n IH]; intros w.
  - destruct_records. munfold. case_stuck; by rewrite app_nil_r.
  - cbn [repeatM]. unfold mbind, M_bind at 1. unfold floatingOnData at 1.
    destruct_records. munfold. case_stuck; rewrite IH; munfold; cbn [replicate]; try done.
    by rewrite <- app_assoc.
Qed.

Lemma repeatM_viewOnResize n g v w :
  repeatM n (viewOnResize g) (v, w) =
  (Ok tt, (v, set_trace (λ tr, tr ++ match ptyProcess v with
                                     | Some pid => replicate n (now w, PtyResize pid g.1 g.2)
                                     | None => []
                                     end) w)).
Proof.
  revert w. induction n as [|n IH]; intros w.
  - destruct_records. munfold. case_stuck; by rewrite app_nil_r.
  - cbn [repeatM]. unfold mbind, M_bind at 1. unfold viewOnResize at 1.
    destruct_records. munfold. case_stuck; rewrite IH; munfold; cbn [replicate]; try done.
    by rewrite <- app_assoc.
Qed.

Lemma repeatM_viewOnData n data v w :
  repeatM n (viewOnData data) (v, w) =
  (Ok tt, (v, set_trace (λ tr, tr ++ match ptyProcess v with
                                     | Some pid => replicate n (now w, PtyWrite Keyboard pid data)
                                     | None => []
                                     end) w)).
Proof.
  revert w. induction n as [|n IH]; intros w.
  - destruct_records. munfold. case_stuck; by rewrite app_nil_r.
  - cbn [repeatM]. unfold mbind, M_bind at 1. unfold viewOnData at 1.
    destruct_records. munfold. case_stuck; rewrite IH; munfold; cbn [replicate]; try done.
    by rewrite <- app_assoc.
Qed.

Ltac mloops :=
  rewrite ?repeatM_floatingOnResize, ?repeatM_floatingOnData,
          ?repeatM_viewOnResize, ?repeatM_viewOnData,
          ?(list_lookup_middle _ [] _ _ eq_refl).

Ltac mrun :=
  repeat (destruct_records; munfold; cbn [timer_id due callback]; mloops;
          try case_stuck).

(** * Preservation along runs *)

Lemma pres_bind P (m1 m2 : M World unit) :
  pres P m1 → pres P m2 → pres P (m1;; m2).
Proof.
  intros H1 H2 w Hw. destruct (H1 w Hw) as (w1 & E1 & P1).
  destruct (H2 w1 P1) as (w2 & E2 & P2). exists w2. split; [|done].
  unfold mbind, M_bind. by rewrite E1.
Qed.

Lemma pres_forM {A} P (f : A → M World unit) (l : list A) :
  (∀ a, pres P (f a)) → pres P (forM l f).
Proof.
  intros Hf. induction l as [|a l IH]; cbn [forM].
  - intros w Hw. by exists w.
  - apply pres_bind; [apply Hf | apply IH].
Qed.

Lemma pres_ret P : pres P (mret tt).
Proof. intros w Hw. by exists w. Qed.

Lemma run_snoc es e w : run (es ++ [e]) w = exec (run es w) e.
Proof. unfold run. by rewrite foldl_app. Qed.

Lemma exec_pres P e w : pres P (step e) → P w → P (exec w e).
Proof. intros H Hw. destruct (H w Hw) as (w' & E & ?). unfold exec. by rewrite E. Qed.

Lemma reachable_pres P :
  P (init host) → (∀ e, pres P (step e)) → ∀ w, reachable w → P w.
Proof.
  intros Hi Hs w [es ->]. induction es as [|e es IH] using rev_ind; [done|].
  rewrite run_snoc. by apply exec_pres.
Qed.

Lemma reachable_init : reachable (init host).
Proof. by exists []. Qed.

Lemma reachable_exec w e : reachable w → reachable (exec w e).
Proof. intros [es ->]. exists (es ++ [e]). by rewrite run_snoc. Qed.

Lemma reachable_run w es : reachable w → reachable (run es w).
Proof.
  revert w. induction es as [|e es IH]; intros w Hw; [done|].
  cbn. apply IH. by apply reachable_exec.
Qed.

Lemma find_timer_elem id l tm : find_timer id l = Some tm → tm ∈ l.
Proof.
  unfold find_timer. intros H. apply head_Some_elem_of in H.
  by apply list_elem_of_filter in H as [_ ?].
Qed.

Lemma pres_step_when (ok : Callback → Prop) P :
  (∀ w tm, P w → tm ∈ timers w → ok (callback tm)) →
  (∀ cb, ok cb → pres P (run_callback cb)) →
  (∀ id, pres P (clearTimeout id)) →
  (∀ i, pres P (detachLeaf i)) →
  pres P showFloatingTerminal →
  ∀ e, match e with Fire _ | MenuUndock _ => True | _ => pres P (step e) end →
       pres P (step e).
Proof.
  intros Hok Hcb Hclear Hdetach Hshow e He.
  destruct e; try exact He.
  - intros w Hw. unfold step, when_attached, mbind, M_bind, gets.
    destruct (views w !! v) as [x|]; [destruct (attached x)|]; try by exists w.
    apply pres_bind; [|apply Hshow|done].
    intros w1 Hw1. unfold detachLeavesOfType, mbind, M_bind, gets.
    by apply pres_forM.
  - intros w Hw. unfold step, fire, mbind, M_bind, gets.
    destruct (find_timer id (timers w)) as [tm|] eqn:Hf; [|by exists w].
    destruct (decide (due tm ≤ now w)); [|by exists w].
    apply pres_bind; [apply Hclear| |done].
    apply Hcb. eapply Hok; [exact Hw|]. by eapply find_timer_elem.
Qed.

Lemma pres_step P :
  (∀ cb, pres P (run_callback cb)) →
  (∀ id, pres P (clearTimeout id)) →
  (∀ i, pres P (detachLeaf i)) →
  pres P showFloatingTerminal →
  ∀ e, match e with Fire _ | MenuUndock _ => True | _ => pres P (step e) end →
       pres P (step e).
Proof. intros Hcb. apply (pres_step_when (λ _, True)); auto. Qed.

(** ** Coherence of the handles *)

Ltac pres_start :=
  intros w Hw; mrun; (eexists; split; [reflexivity|]).

Ltac psimpl :=
  cbn [plugin views now timers next_id spawn_attempts alive trace uncaught
       settings floatingContainer floatingTerminal floatingFitAddon floatingPtyProcess
       floatingResizeObserver isFloatingVisible floatingFitDebounceTimer
       terminal fitAddon ptyProcess resizeObserver fitDebounceTimer attached v_grid
       t_id cols rows onData onResize is_hidden content c_grid
       shellPath autoLaunchClaude fontSize floatingWidth floatingHeight
       timer_id due callback fst snd negb isSome] in *.

Ltac coherent_solve :=
  repeat match goal with
         | H : coherent _ |- _ =>
             destruct H as (? & ? & ?)
         | H : Forall view_coherent ?vs, E : ?vs !! _ = Some _ |- _ =>
             pose proof (Forall_lookup_1 _ _ _ _ H E); clear E
         end;
  unfold coherent, floating_coherent, view_coherent, fresh_view in *; psimpl;
  repeat match goal with H : _ ∧ _ |- _ => destruct H end;
  subst; psimpl;
  repeat split;
  try (apply Forall_insert;
       [first [assumption
              | apply Forall_app; split; [assumption|apply Forall_singleton]]|]);
  try (apply Forall_app; split; [assumption|apply Forall_singleton]);
  psimpl; repeat split;
  try done; try congruence.

Lemma coherent_step e : pres coherent (step e).
Proof.
  apply pres_step.
  - intros cb. destruct cb; pres_start; coherent_solve.
  - intros id. pres_start; coherent_solve.
  - intros i. pres_start; coherent_solve.
  - pres_start; coherent_solve.
  - destruct e; try exact I; pres_start; coherent_solve.
Qed.

Lemma coherent_init : coherent (init host).
Proof. repeat split; cbn; done. Qed.

Lemma reachable_coherent w : reachable w → coherent w.
Proof. apply reachable_pres; [apply coherent_init | apply coherent_step]. Qed.

(** ** Freshness of handles *)

Lemma Forall_timer_id_mono n n' (l : list Timer) :
  n ≤ n' → Forall (λ tm, timer_id tm < n) l → Forall (λ tm, timer_id tm < n') l.
Proof. intros Hn HF. eapply Forall_impl; [exact HF|]. intros tm ?. cbn in *. lia. Qed.

Lemma Forall_created_mono n n' (l : list (nat * Effect)) :
  n ≤ n' →
  Forall (λ x, match created x.2 with Some i => i < n | None => True end) l →
  Forall (λ x, match created x.2 with Some i => i < n' | None => True end) l.
Proof.
  intros Hn HF. eapply Forall_impl; [exact HF|].
  intros x. cbn. destruct (created x.2); [lia|done].
Qed.

Lemma Forall_filter_weak {A} (P : A → Prop) (Q : A → Prop) `{∀ x, Decision (Q x)} l :
  Forall P l → Forall P (filter Q l).
Proof.
  intros HP. apply Forall_forall. intros x Hx.
  apply list_elem_of_filter in Hx as [_ Hx]. by eapply Forall_forall in HP.
Qed.

Ltac forall_solve elem :=
  repeat first
    [ apply Forall_nil_2
    | apply Forall_app; split
    | apply Forall_cons; split
    | apply Forall_replicate
    | apply Forall_filter_weak
    | assumption
    | (eapply Forall_timer_id_mono; [|eassumption]; lia)
    | (eapply Forall_created_mono; [|eassumption]; lia)
    | elem ].

Ltac ids_elem :=
  solve [ psimpl; cbn [created spawn_contract_ok]; try done; try lia;
          unfold fixed_contract; psimpl; cbn [sp_args sp_name sp_cwd sp_env]; done ].

Ltac ids_solve :=
  match goal with H : ids_ok _ |- _ => destruct H as (? & ? & ? & ? & ?) end;
  unfold ids_ok in *; psimpl;
  split_and!; try done; try lia; forall_solve ids_elem;
  repeat match goal with
         | |- context [match ?x with _ => _ end] => is_var x; destruct x
         end;
  destruct_records; psimpl; try done; try lia.

Lemma ids_ok_step e : pres ids_ok (step e).
Proof.
  apply pres_step.
  - intros cb. destruct cb; pres_start; ids_solve.
  - intros id. pres_start; ids_solve.
  - intros i. pres_start; ids_solve.
  - pres_start; ids_solve.
  - destruct e; try exact I; pres_start; ids_solve.
Qed.

Lemma ids_ok_init : ids_ok (init host).
Proof. repeat split; cbn; done. Qed.

Lemma reachable_ids_ok w : reachable w → ids_ok w.
Proof. apply reachable_pres; [apply ids_ok_init | apply ids_ok_step]. Qed.

(** ** Firing the callback scheduled last *)

Lemma filter_none {A} (P : A → Prop) `{∀ x, Decision (P x)} (l : list A) :
  Forall (λ x, ¬ P x) l → filter P l = [].
Proof.
  induction 1 as [|x l Hx _ IH]; [done|].
  by rewrite filter_cons_False.
Qed.

Lemma filter_all {A} (P : A → Prop) `{∀ x, Decision (P x)} (l : list A) :
  Forall P l → filter P l = l.
Proof.
  induction 1 as [|x l Hx _ IH]; [done|].
  rewrite filter_cons_True by done. by rewrite IH.
Qed.

Lemma find_timer_last ts k d cb :
  Forall (λ x, timer_id x < k) ts →
  find_timer k (ts ++ [mkTimer k d cb]) = Some (mkTimer k d cb).
Proof.
  intros H. unfold find_timer. rewrite filter_app, filter_none.
  - rewrite app_nil_l, filter_cons_True by done. done.
  - eapply Forall_impl; [exact H|]. intros x ?. cbn in *. lia.
Qed.

Lemma filter_timer_last ts k d cb :
  Forall (λ x, timer_id x < k) ts →
  filter (λ tm, timer_id tm ≠ k) (ts ++ [mkTimer k d cb]) = ts.
Proof.
  intros H. rewrite filter_app.
  rewrite (filter_cons_False _ (mkTimer k d cb)) by (cbn; intros ?; done).
  rewrite filter_nil, app_nil_r.
  apply filter_all. eapply Forall_impl; [exact H|].
  intros x ?. cbn in *. lia.
Qed.

Lemma find_timer_absent ts k n :
  Forall (λ x, timer_id x < n) ts → n ≤ k → find_timer k ts = None.
Proof.
  intros H Hk. unfold find_timer. rewrite filter_none; [done|].
  eapply Forall_impl; [exact H|]. intros x ?. cbn in *. lia.
Qed.

Lemma filter_timer_self k d cb :
  filter (λ tm, timer_id tm ≠ k) [mkTimer k d cb] = [].
Proof. by rewrite filter_cons_False by (cbn; intros ?; done). Qed.

Lemma find_timer_self k d cb :
  find_timer k [mkTimer k d cb] = Some (mkTimer k d cb).
Proof. unfold find_timer. by rewrite filter_cons_True. Qed.

Ltac timers_side :=
  solve [ assumption | eapply Forall_timer_id_mono; [|eassumption]; lia ].

(** Evaluate the innermost [exec] of the goal, leaving the rest untouched. *)
Ltac mrun_scenario :=
  repeat (destruct_records; munfold; cbn [timer_id due callback Nat.add]; mloops;
          try first
            [ rewrite find_timer_last by timers_side
            | rewrite filter_timer_last by timers_side
            | rewrite (find_timer_absent _ _ _ ltac:(eassumption)) by lia
            | rewrite list_insert_insert_eq
            | rewrite find_timer_self
            | rewrite filter_timer_self
            | rewrite list_lookup_insert_eq by (eapply lookup_lt_Some; eassumption)
            | match goal with
              | E : ?l !! ?i = Some _ |- context [?l !! ?i] => rewrite E
              end
            | match goal with
              | E : pty_attempt ?h ?n = _ |- context [pty_attempt ?h ?n] => rewrite E
              end
            | match goal with
              | |- context [decide (?a ≤ ?b)] =>
                  first [ rewrite (decide_True (P := a ≤ b)) by lia
                        | rewrite (decide_False (P := a ≤ b)) by lia ]
              end
            | case_stuck ]).

Ltac exec_step :=
  match goal with
  | |- context [exec ?W ?e] =>
      lazymatch W with context [exec _ _] => fail | _ => idtac end;
      pattern (exec W e);
      match goal with
      | |- ?P _ => let Q := fresh "Q" in set (Q := P); mrun_scenario; subst Q; cbv beta
      end
  end.

(** Bring the outcome of the attempt, once split, to bear on what is assumed
    of it; impossible outcomes close the goal. *)
Ltac attempt_cases :=
  repeat match goal with
         | E : pty_attempt _ _ = _, H : context [pty_attempt _ _] |- _ =>
             rewrite E in H
         end;
  unfold attempt_ok, attempt_fails in *;
  cbn [local_module global_module spawn_error] in *;
  try solve [intuition congruence].

(** Membership in a list that is written out. *)
Ltac elem_solve :=
  first [ apply list_elem_of_here
        | apply list_elem_of_further; elem_solve
        | apply elem_of_app; left; elem_solve
        | apply elem_of_app; right; elem_solve ].

(** ** Auto-launch stays off while the setting is off *)

Ltac launch_solve :=
  match goal with H : never_enabled _ |- _ => destruct H as (? & ? & ?) end;
  unfold never_enabled in *; psimpl; subst;
  try congruence;
  split_and!; try done;
  forall_solve ltac:(solve [psimpl; cbn [is_launch_callback is_injection]; done]).

Lemma never_enabled_step e :
  e ≠ ChangeAutoLaunch true → pres never_enabled (step e).
Proof.
  intros He. apply (pres_step_when (λ cb, is_launch_callback cb = false)).
  - intros w tm (_ & Hts & _) Htm. by eapply Forall_forall in Hts.
  - intros cb Hcb. destruct cb; try discriminate Hcb; pres_start; launch_solve.
  - intros id. pres_start; launch_solve.
  - intros i. pres_start; launch_solve.
  - pres_start; launch_solve.
  - destruct e as [| | | | | | | | | | | | |[]| | | | | |]; try exact I; try done;
      pres_start; launch_solve.
Qed.

(** * The claims *)

(** ** C10: before layout-ready the floating operations do nothing *)

(** C10.  While the floating container does not exist yet, [showFloatingTerminal],
    [hideFloatingTerminal] and [toggleFloatingTerminal] return normally and
    leave the whole world as it was: no terminal, no process, no callback, no
    host call; and in every reachable such state the visibility flag is
    [false] and no floating terminal or process exists. *)
Theorem floating_ops_before_layout_ready (w : World) :
  reachable w →
  floatingContainer (plugin w) = None →
  showFloatingTerminal w = (Ok tt, w) ∧
  hideFloatingTerminal w = (Ok tt, w) ∧
  toggleFloatingTerminal w = (Ok tt, w) ∧
  exec w ShowFloating = w ∧ exec w HideFloating = w ∧ exec w ToggleFloating = w ∧
  isFloatingVisible (plugin w) = false ∧
  floatingTerminal (plugin w) = None ∧
  floatingPtyProcess (plugin w) = None.
Proof.
  intros Hr Hc. apply reachable_coherent in Hr as (_ & Hf & _).
  destruct Hf as (Hpty & _ & _ & Hterm & Hvis).
  destruct w as [p ? ? ? ? ? ? ? ?], p as [? c t ? pty ? vis ?].
  psimpl. subst c.
  assert (Hshow : ∀ w, floatingContainer (plugin w) = None →
                       showFloatingTerminal w = (Ok tt, w)).
  { intros [p' ? ? ? ? ? ? ? ?] Hp. destruct p'. psimpl. subst. by munfold. }
  assert (Hhide : ∀ w, floatingContainer (plugin w) = None →
                       hideFloatingTerminal w = (Ok tt, w)).
  { intros [p' ? ? ? ? ? ? ? ?] Hp. destruct p'. psimpl. subst. by munfold. }
  split_and!.
  - by apply Hshow.
  - by apply Hhide.
  - unfold toggleFloatingTerminal, mbind, M_bind, gets. psimpl.
    destruct vis; [by apply Hhide | by apply Hshow].
  - unfold exec, step. by rewrite Hshow.
  - unfold exec, step. by rewrite Hhide.
  - unfold exec, step, toggleFloatingTerminal, mbind, M_bind, gets. psimpl.
    destruct vis; [by rewrite Hhide | by rewrite Hshow].
  - done.
  - destruct t; [by specialize (Hterm eq_refl)|done].
  - destruct t; [by specialize (Hterm eq_refl)|].
    destruct pty; [by specialize (Hpty eq_refl)|done].
Qed.

(** ** C4: Destroy is idempotent *)

(** C4.  [destroyFloatingTerminal] and [destroyTerminal] never throw; after
    either, the surface, process, fit-addon and observer handles are all
    null; a second call changes nothing at all; and on a session whose
    handles are already null (never constructed, never activated) the call is
    a no-op. *)
Theorem destroy_idempotent :
  (∀ w, ∃ w1, destroyFloatingTerminal w = (Ok tt, w1) ∧
              floating_handles_null (plugin w1) ∧
              destroyFloatingTerminal w1 = (Ok tt, w1)) ∧
  (∀ w, floating_handles_null (plugin w) →
        (∀ c, floatingContainer (plugin w) = Some c → content c = []) →
        destroyFloatingTerminal w = (Ok tt, w)) ∧
  (∀ v w, ∃ v1 w1, destroyTerminal (v, w) = (Ok tt, (v1, w1)) ∧
                   view_handles_null v1 ∧
                   destroyTerminal (v1, w1) = (Ok tt, (v1, w1))) ∧
  (∀ v w, view_handles_null v → destroyTerminal (v, w) = (Ok tt, (v, w))).
Proof.
  split_and!.
  - intros [[s c t f p o vis d] ? ? ? ? ? ? ? ?].
    destruct c as [[]|], t as [[]|], p, o;
      eexists; (split_and!; [by munfold | by repeat split | by munfold]).
  - intros w (Ht & Hp & Hf & Ho) Hc. destruct_records. psimpl. subst.
    destruct floatingContainer0 as [[? ? ?]|]; [|by munfold].
    specialize (Hc _ eq_refl). psimpl. subst. by munfold.
  - intros [t f p o d a g] [? ? ? ? ? ? ? ? ?].
    destruct t as [[]|], f, p, o;
      do 2 eexists; (split_and!; [by munfold | by repeat split | by munfold]).
  - intros v w (Ht & Hp & Hf & Ho). destruct_records. psimpl. subst. by munfold.
Qed.

(** ** C6: a process handle only while there is a surface *)

(** C6.  In every reachable state the floating session and every docked
    view hold a process handle only if they hold a surface handle.  The
    operations that matter: starting the pty with a null surface does
    nothing (no spawn), and destroy kills the held process and nulls both
    handles. *)
Theorem process_only_with_surface (w : World) :
  reachable w →
  (floatingPtyProcess (plugin w) ≠ None → floatingTerminal (plugin w) ≠ None) ∧
  (∀ i v, views w !! i = Some v → ptyProcess v ≠ None → terminal v ≠ None) ∧
  (floatingTerminal (plugin w) = None → startFloatingPty w = (Ok tt, w)) ∧
  (∀ i v, terminal v = None → startPty i (v, w) = (Ok tt, (v, w))) ∧
  (∃ w1, destroyFloatingTerminal w = (Ok tt, w1) ∧
         floatingTerminal (plugin w1) = None ∧
         floatingPtyProcess (plugin w1) = None ∧
         ∀ p, floatingPtyProcess (plugin w) = Some p →
              (now w, PtyKill p) ∈ trace w1 ∧ alive w1 !! p = None) ∧
  (∀ v, ∃ v1 w1, destroyTerminal (v, w) = (Ok tt, (v1, w1)) ∧
         terminal v1 = None ∧ ptyProcess v1 = None ∧
         ∀ p, ptyProcess v = Some p →
              (now w, PtyKill p) ∈ trace w1 ∧ alive w1 !! p = None).
Proof.
  intros Hr. apply reachable_coherent in Hr as (_ & Hf & Hv).
  split_and!.
  - destruct Hf as (Hpty & _). intros Hp Ht.
    destruct (floatingPtyProcess (plugin w)); [|done].
    specialize (Hpty eq_refl). by rewrite Ht in Hpty.
  - intros i v Hi Hp Ht. pose proof (Forall_lookup_1 _ _ _ _ Hv Hi) as (Hpty & _).
    destruct (ptyProcess v); [|done].
    specialize (Hpty eq_refl). by rewrite Ht in Hpty.
  - clear. intros Ht. destruct_records. psimpl. subst. by munfold.
  - clear. intros i v Ht. destruct_records. psimpl. subst. by munfold.
  - clear. destruct w as [[s c t f p o vis d] ? ? ? ? ? ? ? ?].
    destruct c as [[]|], t as [[]|], p, o;
      eexists; (split_and!; [by munfold|done|done|]); intros p' Hp; psimpl;
      simplify_eq; (split; [|apply lookup_delete_eq]);
      rewrite !elem_of_app, !list_elem_of_singleton; tauto.
  - clear. intros [t f p o d a g]. destruct w as [? ? ? ? ? ? ? ? ?].
    destruct t as [[]|], p, o;
      do 2 eexists; (split_and!; [by munfold|done|done|]); intros p' Hp; psimpl;
      simplify_eq; (split; [|apply lookup_delete_eq]);
      rewrite !elem_of_app, !list_elem_of_singleton; tauto.
Qed.

(** ** C3: a failed activation *)

(** C3.  When the activation fails with exception [e] (neither pty module
    loads, or [spawn] throws), the exception is caught by both sessions: the
    call returns normally, the surface handle stays and the process handle is
    left as it was (null on a session that held no process).  The docked view
    then writes the red error line and the raw text of [e] into its terminal;
    the floating session writes the red error line only, the raw text of [e]
    goes to the console and never reaches the terminal. *)
Theorem spawn_failure_reporting (w : World) (e : string) :
  attempt_fails (pty_attempt host (spawn_attempts w)) e →
  (∀ t, floatingTerminal (plugin w) = Some t →
     ∃ w1, startFloatingPty w = (Ok tt, w1) ∧
       floatingTerminal (plugin w1) = Some t ∧
       floatingPtyProcess (plugin w1) = floatingPtyProcess (plugin w) ∧
       uncaught w1 = uncaught w ∧ alive w1 = alive w ∧ timers w1 = timers w ∧
       trace w1 = trace w ++
         [(now w, ConsoleError failed_to_start e);
          (now w, TerminalWrite (t_id t) error_line)]) ∧
  (∀ i v t, terminal v = Some t →
     ∃ v1 w1, startPty i (v, w) = (Ok tt, (v1, w1)) ∧
       terminal v1 = Some t ∧ ptyProcess v1 = ptyProcess v ∧
       uncaught w1 = uncaught w ∧ alive w1 = alive w ∧ timers w1 = timers w ∧
       trace w1 = trace w ++
         [(now w, ConsoleError failed_to_start e);
          (now w, TerminalWrite (t_id t) error_line);
          (now w, TerminalWrite (t_id t) (error_text e))]).
Proof.
  intros Hfail. split.
  - intros t Ht. destruct w as [[] ? ? ? ? ? ? ? ?], t. psimpl. subst.
    mrun_scenario; attempt_cases;
      eexists; (split_and!; [reflexivity|try done..]); psimpl;
      rewrite <- ?app_assoc; cbn [app];
      by destruct Hfail as [[? ?]|[[?|?] ?]]; simplify_eq.
  - intros i v t Ht. destruct w as [[] ? ? ? ? ? ? ? ?], v, t. psimpl. subst.
    mrun_scenario; attempt_cases;
      do 2 eexists; (split_and!; [reflexivity|try done..]); psimpl;
      rewrite <- ?app_assoc; cbn [app];
      by destruct Hfail as [[? ?]|[[?|?] ?]]; simplify_eq.
Qed.

(** ** C8: the spawn contract *)

Lemma spawn_env_lookup :
  spawn_env host !! "TERM" = Some "xterm-256color" ∧
  spawn_env host !! "COLORTERM" = Some "truecolor" ∧
  ∀ k, k ≠ "TERM" → k ≠ "COLORTERM" → spawn_env host !! k = process_env host !! k.
Proof.
  unfold spawn_env. split_and!.
  - rewrite lookup_insert_ne by done. apply lookup_insert_eq.
  - apply lookup_insert_eq.
  - intros k H1 H2. by rewrite !lookup_insert_ne.
Qed.

(** C8.  When the pty module loads and [spawn] does not throw, starting the
    pty of a session with surface [t] issues exactly one spawn, with the
    request of the contract: the configured shell path, no arguments, pty
    name xterm-256color, the columns and rows of [t], the vault root as
    working directory, and the process environment with TERM and COLORTERM
    overridden.  In every reachable state, every spawn recorded in the trace
    has those fixed fields. *)
Theorem spawn_contract (w : World) :
  (∀ t, floatingTerminal (plugin w) = Some t →
        attempt_ok (pty_attempt host (spawn_attempts w)) →
        ∃ w1, startFloatingPty w = (Ok tt, w1) ∧
              floatingPtyProcess (plugin w1) = Some (next_id w) ∧
              trace w1 = trace w ++
                [(now w, PtySpawn (next_id w)
                           (contract_request (shellPath (settings (plugin w))) t))]) ∧
  (∀ i v t, terminal v = Some t →
        attempt_ok (pty_attempt host (spawn_attempts w)) →
        ∃ v1 w1, startPty i (v, w) = (Ok tt, (v1, w1)) ∧
              ptyProcess v1 = Some (next_id w) ∧
              trace w1 = trace w ++
                [(now w, PtySpawn (next_id w)
                           (contract_request (shellPath (settings (plugin w))) t))]) ∧
  (reachable w → ∀ x p r, x ∈ trace w → x.2 = PtySpawn p r →
        sp_args r = [] ∧ sp_name r = "xterm-256color" ∧
        sp_cwd r = basePath host ∧
        sp_env r !! "TERM" = Some "xterm-256color" ∧
        sp_env r !! "COLORTERM" = Some "truecolor" ∧
        ∀ k, k ≠ "TERM" → k ≠ "COLORTERM" → sp_env r !! k = process_env host !! k).
Proof.
  split_and!.
  - intros t Ht Hok. destruct w as [[] ? ? ? ? ? ? ? ?], t. psimpl. subst.
    unfold contract_request, spawn_env. mrun_scenario; attempt_cases;
      eexists; by split_and!.
  - intros i v t Ht Hok. destruct w as [[] ? ? ? ? ? ? ? ?], v, t. psimpl. subst.
    unfold contract_request, spawn_env. mrun_scenario; attempt_cases;
      do 2 eexists; by split_and!.
  - intros Hr x p r Hx Hxr. apply reachable_ids_ok in Hr as (_ & _ & _ & _ & Hc).
    eapply Forall_forall in Hc; [|exact Hx]. cbn in Hc. rewrite Hxr in Hc.
    destruct Hc as (? & ? & ? & Henv). rewrite Henv.
    pose proof spawn_env_lookup as (? & ? & ?). by split_and!.
Qed.

(** ** C2: hiding keeps the session, closing destroys it *)

(** Showing a floating session that holds no terminal builds one with a fresh
    handle; after its two animation frames a process with a fresh handle is
    running. *)
Lemma reinitialize_floating (w : World) (c : Container) :
  Forall (λ tm, timer_id tm < next_id w) (timers w) →
  floatingContainer (plugin w) = Some c →
  floatingTerminal (plugin w) = None →
  attempt_ok (pty_attempt host (spawn_attempts w)) →
  ∃ t' new font r,
    let w' := exec (exec (exec w ShowFloating) (Fire (2 + next_id w)))
                   (Fire (4 + next_id w)) in
    floatingTerminal (plugin w') = Some t' ∧ t_id t' = next_id w ∧
    floatingPtyProcess (plugin w') = Some (5 + next_id w) ∧
    trace w' = trace w ++ new ∧
    (now w, TerminalNew (next_id w) font) ∈ new ∧
    (now w, PtySpawn (5 + next_id w) r) ∈ new ∧
    alive w' = <[5 + next_id w := Floating]> (alive w).
Proof.
  intros Hts Hc Ht Hok.
  destruct w as [[s c' t f p o vis d] vs n ts nid sa al tr un].
  psimpl. subst c' t.
  destruct (pty_attempt host sa) as [[e1|] [e2|] [e3|]] eqn:Ha; attempt_cases.
  all: do 3 exec_step.
  all: do 4 eexists; cbv zeta; psimpl; cbn [Nat.add].
  all: (split_and!; [done|done|done|by rewrite <- ?app_assoc|..|done]).
  all: elem_solve.
Qed.

(** C2.  With the floating container in place: hiding and showing again a
    floating session leaves the same terminal and the same process handle in
    place, and nothing is constructed, spawned, scheduled or killed; closing
    and showing again disposes the old terminal, kills the old process, builds
    a terminal with a fresh handle and, once its two animation frames have
    run and the spawn succeeds, holds a process with a fresh handle. *)
Theorem hide_keeps_close_destroys (w : World) (c : Container) :
  reachable w →
  floatingContainer (plugin w) = Some c →
  (∀ t, floatingTerminal (plugin w) = Some t →
     let w' := run [HideFloating; ShowFloating] w in
     (∃ t', floatingTerminal (plugin w') = Some t' ∧ t_id t' = t_id t) ∧
     floatingPtyProcess (plugin w') = floatingPtyProcess (plugin w) ∧
     spawn_attempts w' = spawn_attempts w ∧ alive w' = alive w ∧
     timers w' = timers w ∧ next_id w' = next_id w ∧
     ∃ new, trace w' = trace w ++ new ∧ Forall (λ x, created x.2 = None) new) ∧
  (attempt_ok (pty_attempt host (spawn_attempts w)) →
     let w' := run [ClickClose; ShowFloating;
                    Fire (2 + next_id w); Fire (4 + next_id w)] w in
     (∃ t', floatingTerminal (plugin w') = Some t' ∧ t_id t' = next_id w) ∧
     floatingPtyProcess (plugin w') = Some (5 + next_id w) ∧
     (∃ font, (now w, TerminalNew (next_id w) font) ∈ trace w') ∧
     (∃ r, (now w, PtySpawn (5 + next_id w) r) ∈ trace w') ∧
     alive w' !! (5 + next_id w) = Some Floating ∧
     Forall (λ x, created x.2 ≠ Some (next_id w) ∧
                  created x.2 ≠ Some (5 + next_id w)) (trace w) ∧
     (∀ t, floatingTerminal (plugin w) = Some t →
           t_id t < next_id w ∧ (now w, TerminalDispose (t_id t)) ∈ trace w') ∧
     (∀ p, floatingPtyProcess (plugin w) = Some p →
           p < next_id w ∧ (now w, PtyKill p) ∈ trace w' ∧ alive w' !! p = None)).
Proof.
  intros Hr Hc. pose proof (reachable_ids_ok _ Hr) as (Hts & Ht & Hp & Htr & _).
  clear Hr. destruct w as [[s c' t f p o vis d] vs n ts nid sa al tr un].
  psimpl. subst c'. split.
  - intros t0 ->. cbn [run foldl]. cbv zeta.
    exec_step. exec_step; psimpl.
    all: split_and!; try done; try (by eexists).
    all: eexists; (split; [by rewrite <- ?app_assoc|]).
    all: repeat first [apply Forall_nil_2 | apply Forall_cons; split
                      | apply Forall_app; split | apply Forall_replicate | done].
  - intros Hok. cbn [run foldl]. cbv zeta.
    assert (Hfresh : Forall (λ x, created x.2 ≠ Some nid ∧
                                  created x.2 ≠ Some (5 + nid)) tr).
    { eapply Forall_impl; [exact Htr|]. intros x. cbn.
      destruct (created x.2); [|done]. intros ?. split; intros [= ->]; lia. }
    exec_step;
      match goal with
      | |- context [exec ?W ShowFloating] =>
          edestruct (reinitialize_floating W) as (t' & new & font & r & H);
            try solve [psimpl; done]
      end;
      psimpl; cbv zeta in H; destruct H as (E1 & E2 & E3 & E4 & I1 & I2 & E5);
      rewrite E1, E3, E4, E5;
      (split_and!;
       [ by eexists | done | eexists; apply elem_of_app; right; exact I1
       | eexists; apply elem_of_app; right; exact I2
       | apply lookup_insert_eq | done
       | intros ? ?;
           first [ discriminate
                 | simplify_eq; split; [done|]; apply elem_of_app; left; elem_solve ]
       | intros ? ?;
           first [ discriminate
                 | simplify_eq; split; [done|];
                   (split; [apply elem_of_app; left; elem_solve|]);
                   rewrite lookup_insert_ne by lia; apply lookup_delete_eq ] ]).
Qed.

(** ** C1: mode coordination *)

Lemma detachLeaf_spec i w :
  ∃ w', detachLeaf i w = (Ok tt, w') ∧ plugin w' = plugin w ∧
    length (views w') = length (views w) ∧
    (∀ j, j ≠ i → views w' !! j = views w !! j) ∧
    ∀ v, views w !! i = Some v →
         ∃ v', views w' !! i = Some v' ∧ attached v' = false ∧
               (attached v = true → view_handles_null v') ∧
               (attached v = false → v' = v).
Proof.
  destruct w as [p vs n ts nid sa al tr un].
  unfold detachLeaf, withView. cbn [views].
  destruct (vs !! i) as [[t f pty o d a g]|] eqn:Hi.
  - pose proof (lookup_lt_Some _ _ _ Hi) as Hlt.
    destruct a, t as [[]|], pty, o; munfold; eexists;
      (split; [reflexivity|]); psimpl;
      (split_and!; [reflexivity | by rewrite length_insert
                   | by intros j ?; rewrite list_lookup_insert_ne | ]);
      intros ? [= <-]; eexists;
      (split_and!; [by apply list_lookup_insert_eq | done | by intros; repeat split
                   | by intros]).
  - eexists. by split_and!.
Qed.

Lemma detach_all_spec l w :
  ∃ w', forM l detachLeaf w = (Ok tt, w') ∧ plugin w' = plugin w ∧
    length (views w') = length (views w) ∧
    ∀ j v, views w !! j = Some v →
           ∃ v', views w' !! j = Some v' ∧
                 (attached v = false → v' = v) ∧
                 (j ∈ l → attached v' = false ∧
                          (attached v = true → view_handles_null v')).
Proof.
  revert w. induction l as [|i l IH]; intros w.
  - exists w. split_and!; try done. intros j v Hj. exists v. split_and!; try done.
    intros Hin. by apply elem_of_nil in Hin.
  - destruct (detachLeaf_spec i w) as (w1 & E1 & P1 & L1 & O1 & S1).
    destruct (IH w1) as (w2 & E2 & P2 & L2 & A2).
    exists w2. split_and!.
    + cbn [forM]. unfold mbind, M_bind. by rewrite E1.
    + congruence.
    + congruence.
    + intros j v Hj. destruct (decide (j = i)) as [->|Hne].
      * destruct (S1 v Hj) as (v1 & Hv1 & Hd1 & Hn1 & Hs1).
        destruct (A2 i v1 Hv1) as (v2 & Hv2 & Hsame & _).
        specialize (Hsame Hd1). subst v2. exists v1. split_and!; try done.
      * rewrite <- (O1 j Hne) in Hj.
        destruct (A2 j v Hj) as (v2 & Hv2 & Hsame & Hin).
        exists v2. split_and!; try done.
        intros Hjl. apply elem_of_cons in Hjl as [?|?]; [done|by apply Hin].
Qed.

Lemma show_keeps_views w :
  ∃ w', showFloatingTerminal w = (Ok tt, w') ∧ views w' = views w ∧
        (floatingContainer (plugin w) ≠ None → isFloatingVisible (plugin w') = true).
Proof. mrun; eexists; by split_and!. Qed.

Lemma insert_snoc_same {A} (l : list A) (x : A) :
  <[length l := x]> (l ++ [x]) = l ++ [x].
Proof. apply list_insert_id. by apply list_lookup_middle. Qed.

(** C1 (as amended).  [openInSidebar] leaves the floating surface not
    visible.  If the floating surface was visible, its session is destroyed
    (all four handles null, its process killed) and the view that is then
    opened is still unconstructed; if it was hidden, the floating session is
    left exactly as it was.  Undocking detaches every docked leaf, destroying
    the session of each leaf that was attached, and then shows the floating
    surface. *)
Theorem mode_coordination (w : World) :
  reachable w →
  (∀ leaf,
     let w' := exec w (OpenInSidebar leaf) in
     isFloatingVisible (plugin w') = false ∧
     (isFloatingVisible (plugin w) = true →
        floating_handles_null (plugin w') ∧
        ∀ p, floatingPtyProcess (plugin w) = Some p →
             (now w, PtyKill p) ∈ trace w' ∧ alive w' !! p = None) ∧
     (isFloatingVisible (plugin w) = false → plugin w' = plugin w) ∧
     views w' = views w ++ (if leaf then [fresh_view host] else [])) ∧
  (∀ i v, views w !! i = Some v → attached v = true →
     let w' := exec w (MenuUndock i) in
     (∀ j v', views w' !! j = Some v' → attached v' = false) ∧
     (∀ j u, views w !! j = Some u → attached u = true →
             ∃ u', views w' !! j = Some u' ∧ view_handles_null u') ∧
     (floatingContainer (plugin w) ≠ None → isFloatingVisible (plugin w') = true)).
Proof.
  intros Hr. apply reachable_coherent in Hr as (_ & Hf & _).
  destruct Hf as (_ & _ & _ & _ & Hvis). split.
  - intros leaf. cbv zeta.
    destruct w as [[s c t f p o vis d] vs n ts nid sa al tr un]. psimpl.
    destruct c as [[hid ct g]|]; psimpl; subst; [|destruct leaf];
      exec_step; rewrite 1?insert_snoc_same, 1?app_nil_r; psimpl;
      split_and!; try done;
      intros _; (split; [by repeat split|]); intros ? ?;
      first [ discriminate
            | simplify_eq; split; [elem_solve | apply lookup_delete_eq] ].
  - intros i v Hi Ha. cbv zeta.
    destruct (detach_all_spec (seq 0 (length (views w))) w) as (w1 & E1 & P1 & L1 & A1).
    destruct (show_keeps_views w1) as (w2 & E2 & V2 & C2).
    assert (exec w (MenuUndock i) = w2) as ->.
    { unfold exec, step, when_attached, mbind, M_bind, gets. rewrite Hi, Ha.
      unfold undockToFloating, detachLeavesOfType, mbind, M_bind, gets.
      by rewrite E1, E2. }
    rewrite V2. split_and!.
    + intros j v' Hj.
      assert (j < length (views w)) as Hlt.
      { rewrite <- L1. by eapply lookup_lt_Some. }
      destruct (lookup_lt_is_Some_2 (views w) j Hlt) as (u & Hu).
      destruct (A1 j u Hu) as (u' & Hu' & _ & Hin).
      rewrite Hu' in Hj. injection Hj as <-.
      apply Hin. apply elem_of_seq. lia.
    + intros j u Hu Hau.
      destruct (A1 j u Hu) as (u' & Hu' & _ & Hin).
      exists u'. split; [done|]. apply Hin; [|done].
      apply elem_of_seq. pose proof (lookup_lt_Some _ _ _ Hu). lia.
    + rewrite <- P1. apply C2.
Qed.

(** ** C5: teardown and the debounce timer *)

(** C5 (as amended).  Destroy does not cancel a pending debounce callback:
    the callback queue and the timer handle are left as they were.  Instead
    the callbacks are guarded: the debounce callback and the second
    animation-frame callback do nothing at all on a session whose handles are
    null.  Constructing a floating session and destroying it at once leaves
    all handles null, no process, the timer handle unchanged, and as only new
    pending callback the first animation frame. *)
Theorem destroy_leaves_guarded_timer :
  (∀ w, ∃ w1, destroyFloatingTerminal w = (Ok tt, w1) ∧ timers w1 = timers w ∧
              floatingFitDebounceTimer (plugin w1) = floatingFitDebounceTimer (plugin w)) ∧
  (∀ v w, ∃ v1 w1, destroyTerminal (v, w) = (Ok tt, (v1, w1)) ∧ timers w1 = timers w ∧
              fitDebounceTimer v1 = fitDebounceTimer v) ∧
  (∀ w, floatingTerminal (plugin w) = None ∨ floatingFitAddon (plugin w) = None ∨
        floatingPtyProcess (plugin w) = None →
        floatingFitDebounce w = (Ok tt, w)) ∧
  (∀ v w, terminal v = None ∨ fitAddon v = None ∨ ptyProcess v = None →
        viewFitDebounce (v, w) = (Ok tt, (v, w))) ∧
  (∀ w, floatingTerminal (plugin w) = None ∨ floatingFitAddon (plugin w) = None →
        floatingFrameInner w = (Ok tt, w)) ∧
  (∀ i v w, terminal v = None ∨ fitAddon v = None →
        viewFrameInner i (v, w) = (Ok tt, (v, w))) ∧
  (∀ w c, floatingContainer (plugin w) = Some c →
        floatingPtyProcess (plugin w) = None →
        ∃ w1, (initializeFloatingTerminal;; destroyFloatingTerminal) w = (Ok tt, w1) ∧
              floating_handles_null (plugin w1) ∧
              floatingFitDebounceTimer (plugin w1) = floatingFitDebounceTimer (plugin w) ∧
              spawn_attempts w1 = spawn_attempts w ∧ alive w1 = alive w ∧
              timers w1 = timers w ++ [mkTimer (2 + next_id w) (now w + 0) FloatingFrameOuter]) ∧
  (∀ i v w, ptyProcess v = None →
        ∃ v1 w1, (initializeTerminal i;; destroyTerminal) (v, w) = (Ok tt, (v1, w1)) ∧
              view_handles_null v1 ∧
              fitDebounceTimer v1 = fitDebounceTimer v ∧
              spawn_attempts w1 = spawn_attempts w ∧ alive w1 = alive w ∧
              timers w1 = timers w ++ [mkTimer (2 + next_id w) (now w + 0) (ViewFrameOuter i)]).
Proof.
  split_and!.
  - intros [[s c t f p o vis d] ? ? ? ? ? ? ? ?].
    destruct c as [[]|], t as [[]|], p, o; eexists; (split_and!; [by munfold|done|done]).
  - intros [t f p o d a g] [? ? ? ? ? ? ? ? ?].
    destruct t as [[]|], p, o; do 2 eexists; (split_and!; [by munfold|done|done]).
  - intros [[s c t f p o vis d] ? ? ? ? ? ? ? ?] H. psimpl.
    destruct f, t, p; try done; by destruct H as [?|[?|?]].
  - intros [t f p o d a g] [? ? ? ? ? ? ? ? ?] H. psimpl.
    destruct f, t, p; try done; by destruct H as [?|[?|?]].
  - intros [[s c t f p o vis d] ? ? ? ? ? ? ? ?] H. psimpl.
    destruct f, t; try done; by destruct H as [?|?].
  - intros i [t f p o d a g] [? ? ? ? ? ? ? ? ?] H. psimpl.
    destruct f, t; try done; by destruct H as [?|?].
  - intros [[s c' t f p o vis d] ? ? ? ? ? ? ? ?] c Hc Hp. psimpl. subst.
    destruct c as [? ? ?]. eexists. split_and!; [by munfold|by repeat split|done..].
  - intros i [t f p o d a g] [? ? ? ? ? ? ? ? ?] Hp. psimpl. subst.
    do 2 eexists. split_and!; [by munfold|by repeat split|done..].
Qed.

(** ** C7: auto-launch *)

(** Auto-launch of the floating session.  A successful spawn with auto-launch
    enabled schedules exactly one injection, due 300ms later; with the
    setting disabled it schedules nothing.  The scheduled callback cannot run
    before it is due; when it runs and the session still holds its process,
    the launch command is written once to that process, and a second firing
    does nothing; when the session was closed in the meantime, nothing is
    written. *)
Lemma auto_launch_floating (w : World) (t : Terminal) :
  Forall (λ tm, timer_id tm < next_id w) (timers w) →
  floatingTerminal (plugin w) = Some t →
  attempt_ok (pty_attempt host (spawn_attempts w)) →
  floating_launch_spec w.
Proof.
  intros Hts Ht Hok. unfold floating_launch_spec.
  destruct w as [[[sh al' fs fw fh] c t' f p o vis d] vs n ts nid sa al tr un].
  psimpl. subst t'.
  destruct (pty_attempt host sa) as [[e1|] [e2|] [e3|]] eqn:Ha; attempt_cases.
  all: destruct al', t as [tid tc trw tod tor].
  all: eexists; (split; [munfold; rewrite Ha; munfold; reflexivity|]); psimpl.
  all: split_and!; try done.
  all: intros d' Hd; cbv zeta; repeat exec_step; psimpl;
    first [done | by split_and!].
Qed.

(** The same for a docked view. *)
Lemma auto_launch_docked (w : World) (i : nat) (v : ClaudeTerminalView) (t : Terminal) :
  Forall (λ tm, timer_id tm < next_id w) (timers w) →
  views w !! i = Some v →
  terminal v = Some t →
  attempt_ok (pty_attempt host (spawn_attempts w)) →
  docked_launch_spec w i v.
Proof.
  intros Hts Hi Ht Hok. unfold docked_launch_spec.
  destruct w as [[[sh al' fs fw fh] c t' f p o vis d] vs n ts nid sa al tr un].
  destruct v as [vt vf vp vo vd va vg].
  psimpl. subst vt.
  destruct (pty_attempt host sa) as [[e1|] [e2|] [e3|]] eqn:Ha; attempt_cases.
  all: destruct al', t as [tid tc trw tod tor].
  all: eexists; (split; [munfold; rewrite Hi; munfold; rewrite Ha; munfold; reflexivity|]);
    psimpl.
  all: pose proof (lookup_lt_Some _ _ _ Hi) as Hlt.
  all: split_and!; try done.
  all: try (eexists; split; [by apply list_lookup_insert_eq|done]).
  all: intros d' Hd; cbv zeta; repeat exec_step; psimpl;
    first [done | by split_and!].
Qed.

Lemma never_enabled_run es w :
  Forall (λ e, e ≠ ChangeAutoLaunch true) es →
  never_enabled w → never_enabled (run es w).
Proof.
  revert w. induction es as [|e es IH]; intros w Hes Hw; [done|].
  apply Forall_cons in Hes as [He Hes]. cbn. apply IH; [done|].
  by apply exec_pres; [apply never_enabled_step|].
Qed.

(** C7 (as amended).  For the floating session and for every docked view, in
    any reachable state: a successful spawn with auto-launch enabled
    schedules exactly one injection, due 300ms after the spawn, and none when
    the setting is disabled; the scheduled callback cannot run before it is
    due; when it runs and the session still holds the process of that
    activation, the launch command is written to it exactly once (firing again
    does nothing); when the session was closed in the meantime, nothing is
    written.  While the setting stays disabled from start-up on, no run ever
    injects the command. *)
Theorem auto_launch_once (w : World) :
  reachable w →
  (∀ t, floatingTerminal (plugin w) = Some t →
        attempt_ok (pty_attempt host (spawn_attempts w)) →
        floating_launch_spec w) ∧
  (∀ i v t, views w !! i = Some v → terminal v = Some t →
        attempt_ok (pty_attempt host (spawn_attempts w)) →
        docked_launch_spec w i v) ∧
  (autoLaunchClaude (loadSettings host) = false →
   ∀ es, Forall (λ e, e ≠ ChangeAutoLaunch true) es →
         Forall (λ x, is_injection x.2 = false) (trace (run es (init host)))).
Proof.
  intros Hr. pose proof (reachable_ids_ok _ Hr) as (Hts & _). split_and!.
  - intros t. by apply auto_launch_floating.
  - intros i v t. by apply auto_launch_docked.
  - intros Hoff es Hes.
    by apply (never_enabled_run es (init host) Hes).
Qed.

(** ** C9: the resize debounce *)













(** * Further properties of the plugin *)

(** ** Handlers never throw *)


(** ** The handles of a session go together *)

(** X2.  In every reachable state, a session holds a fit addon exactly when
    it holds a terminal, and a resize observer exactly when it holds a
    terminal; a floating terminal exists only inside the floating container;
    and the container carries the class [is-hidden] exactly when the
    visibility flag is off. *)
Theorem session_handles_coherent (w : World) :
  reachable w →
  (floatingFitAddon (plugin w) = None ↔ floatingTerminal (plugin w) = None) ∧
  (floatingResizeObserver (plugin w) = None ↔ floatingTerminal (plugin w) = None) ∧
  (floatingTerminal (plugin w) ≠ None → floatingContainer (plugin w) ≠ None) ∧
  (∀ c, floatingContainer (plugin w) = Some c →
        is_hidden c = negb (isFloatingVisible (plugin w))) ∧
  (floatingContainer (plugin w) = None → isFloatingVisible (plugin w) = false) ∧
  (∀ i v, views w !! i = Some v →
          (fitAddon v = None ↔ terminal v = None) ∧
          (resizeObserver v = None ↔ terminal v = None)).
Proof.
  intros Hr. destruct (reachable_coherent w Hr) as (_ & Hf & Hv).
  destruct Hf as (_ & Hfit & Hobs & Hcont & Hvis).
  assert (Hiff : ∀ {A B} (a : option A) (b : option B),
            isSome a = isSome b → (a = None ↔ b = None)).
  { intros A B [a|] [b|]; cbn; intros H; split; intros; congruence. }
  split_and!.
  - by apply Hiff.
  - by apply Hiff.
  - intros Ht Hc. destruct (floatingTerminal (plugin w)); [|done].
    specialize (Hcont eq_refl). rewrite Hc in Hcont. discriminate.
  - intros c Hc. by rewrite Hc in Hvis.
  - intros Hc. by rewrite Hc in Hvis.
  - intros i v Hi. pose proof (Forall_lookup_1 _ _ _ _ Hv Hi) as (_ & Hvf & Hvo).
    split; by apply Hiff.
Qed.

(** ** Settings across restarts *)


(** ** Preservation, given coherence *)

Lemma coherent_clearTimeout id : pres coherent (clearTimeout id).
Proof. pres_start; coherent_solve. Qed.

Lemma coherent_detachLeaf i : pres coherent (detachLeaf i).
Proof. pres_start; coherent_solve. Qed.

Lemma coherent_detachLeavesOfType : pres coherent detachLeavesOfType.
Proof.
  intros w Hw. unfold detachLeavesOfType, mbind, M_bind, gets.
  by apply pres_forM; [apply coherent_detachLeaf|].
Qed.

Lemma keeps_bind Q (m1 m2 : M World unit) :
  pres coherent m1 → keeps Q m1 → keeps Q m2 → keeps Q (m1;; m2).
Proof.
  intros Hc H1 H2 w Hw HQ. destruct (Hc w Hw) as (w1 & E1 & Hw1).
  specialize (H1 w Hw HQ). unfold mbind, M_bind. rewrite E1 in H1 |- *.
  by apply H2.
Qed.

Lemma keeps_ret Q : keeps Q (mret tt).
Proof. by intros w _ HQ. Qed.

Lemma keeps_forM {A} Q (f : A → M World unit) (l : list A) :
  (∀ a, pres coherent (f a)) → (∀ a, keeps Q (f a)) → keeps Q (forM l f).
Proof.
  intros Hc Hf. induction l as [|a l IH]; cbn [forM].
  - apply keeps_ret.
  - apply keeps_bind; [apply Hc | apply Hf | apply IH].
Qed.

Lemma keeps_step_when (ok : Callback → Prop) Q :
  (∀ w tm, Q w → tm ∈ timers w → ok (callback tm)) →
  (∀ cb, ok cb → keeps Q (run_callback cb)) →
  (∀ id, keeps Q (clearTimeout id)) →
  (∀ i, keeps Q (detachLeaf i)) →
  keeps Q showFloatingTerminal →
  ∀ e, match e with Fire _ | MenuUndock _ => True | _ => keeps Q (step e) end →
       keeps Q (step e).
Proof.
  intros Hok Hcb Hclear Hdetach Hshow e He.
  destruct e; try exact He.
  - intros w Hw HQ. unfold step, when_attached, mbind, M_bind, gets.
    destruct (views w !! v) as [x|]; [destruct (attached x)|]; try done.
    apply keeps_bind; [apply coherent_detachLeavesOfType| |apply Hshow|done|done].
    intros w1 Hw1 HQ1. unfold detachLeavesOfType, mbind, M_bind, gets.
    apply keeps_forM; [apply coherent_detachLeaf|apply Hdetach|done|done].
  - intros w Hw HQ. unfold step, fire, mbind, M_bind, gets.
    destruct (find_timer id (timers w)) as [tm|] eqn:Hf; [|done].
    destruct (decide (due tm ≤ now w)); [|done].
    apply keeps_bind; [apply coherent_clearTimeout|apply Hclear| |done|done].
    apply Hcb. eapply Hok; [exact HQ|]. by eapply find_timer_elem.
Qed.

Lemma keeps_step Q :
  (∀ cb, keeps Q (run_callback cb)) →
  (∀ id, keeps Q (clearTimeout id)) →
  (∀ i, keeps Q (detachLeaf i)) →
  keeps Q showFloatingTerminal →
  ∀ e, match e with Fire _ | MenuUndock _ => True | _ => keeps Q (step e) end →
       keeps Q (step e).
Proof. intros Hcb. apply (keeps_step_when (λ _, True)); auto. Qed.

Lemma exec_keeps Q e w : keeps Q (step e) → coherent w → Q w → Q (exec w e).
Proof.
  intros H Hw HQ. specialize (H w Hw HQ).
  destruct (coherent_step e w Hw) as (w' & E & _).
  unfold exec. by rewrite E in H |- *.
Qed.

Lemma run_keeps Q (allowed : Event → Prop) es w :
  (∀ e, allowed e → keeps Q (step e)) → Forall allowed es →
  reachable w → Q w → Q (run es w).
Proof.
  intros Hs Hes. revert w. induction Hes as [|e es He _ IH]; intros w Hr HQ; [done|].
  cbn. apply IH; [by apply reachable_exec|].
  apply exec_keeps; [by apply Hs | by apply reachable_coherent | done].
Qed.

Lemma reachable_keeps Q :
  Q (init host) → (∀ e, keeps Q (step e)) → ∀ w, reachable w → Q w.
Proof.
  intros Hi Hs w [es ->].
  apply (run_keeps Q (λ _, True)); [done | by apply Forall_true | apply reachable_init | done].
Qed.

Ltac keeps_start := intros w Hw HQ; mrun.

(** ** The floating container stays *)

Lemma container_step e :
  keeps (λ w, isSome (floatingContainer (plugin w)) = true) (step e).
Proof.
  apply keeps_step.
  - intros cb. destruct cb; keeps_start; psimpl; done.
  - intros id. keeps_start; psimpl; done.
  - intros i. keeps_start; psimpl; done.
  - keeps_start; psimpl; done.
  - destruct e; try exact I; keeps_start; psimpl; done.
Qed.

(** X4.  Once layout-ready has run the floating container is never
    dropped: in every later state it is still there, so showing the floating
    terminal always takes effect (the surface is visible and a terminal is in
    place afterwards). *)
Theorem container_persists (w : World) (es : list Event) :
  reachable w →
  floatingContainer (plugin (exec w LayoutReady)) ≠ None ∧
  (floatingContainer (plugin w) ≠ None →
   floatingContainer (plugin (run es w)) ≠ None ∧
   isFloatingVisible (plugin (exec (run es w) ShowFloating)) = true ∧
   floatingTerminal (plugin (exec (run es w) ShowFloating)) ≠ None).
Proof.
  intros Hr. split.
  - destruct w as [[? c ? ? ? ? ? ?] ? ? ? ? ? ? ? ?]. by destruct c.
  - intros Hc.
    assert (Hc' : isSome (floatingContainer (plugin (run es w))) = true).
    { apply (run_keeps (λ w, isSome (floatingContainer (plugin w)) = true) (λ _, True));
        [intros e _; apply container_step
        | by apply Forall_true | done |].
      by destruct (floatingContainer (plugin w)). }
    pose proof (reachable_coherent _ (reachable_run w es Hr)) as (_ & Hf & _).
    destruct Hf as (_ & Hfit & _).
    destruct (run es w) as [[s c t f p o vis d] vs n ts nid sa al tr un].
    psimpl. destruct c as [[hid ct g]|]; [|done].
    split; [done|].
    destruct t as [[]|], f; psimpl; try done; mrun; by split.
Qed.

(** ** Settings are on disk as soon as they change *)

Lemma load_persisted (h : Host) (s : ClaudeTerminalSettings) :
  loadSettings (restarted h (persisted s)) = s.
Proof. by destruct s, h. Qed.

Lemma data_file_replicate (f : SavedData → nat * Effect → SavedData) d n x :
  (∀ d', f d' x = d') → foldl f d (replicate n x) = d.
Proof. intros H. induction n as [|n IH]; cbn; [done|]. by rewrite H. Qed.

Ltac saved_solve :=
  unfold tab_saved, same_tab_fields, data_file in *; psimpl;
  rewrite ?foldl_app;
  rewrite ?data_file_replicate by done;
  cbv beta iota delta [foldl snd] in *;
  rewrite ?load_persisted; psimpl;
  first [done | assumption | by repeat split].

Lemma tab_saved_step e : keeps tab_saved (step e).
Proof.
  apply keeps_step.
  - intros cb. destruct cb; keeps_start; saved_solve.
  - intros id. keeps_start; saved_solve.
  - intros i. keeps_start; saved_solve.
  - keeps_start; saved_solve.
  - destruct e; try exact I; keeps_start; saved_solve.
Qed.

Lemma tab_saved_init : tab_saved (init host).
Proof.
  unfold tab_saved, data_file. cbn [init trace foldl plugin settings].
  by destruct host as [? ? ? [] ? ?].
Qed.

(** X5.  A change made in the settings tab is stored at once: in every
    reachable state, a restart on the data file as it is now loads the shell
    path, the auto-launch flag and the font size that are in use now.  The
    size of the floating window is stored when a resize drag ends: right
    after it, a restart loads all the settings in use. *)
Theorem settings_survive_restart (w : World) :
  reachable w →
  same_tab_fields (loadSettings (restarted host (data_file w))) (settings (plugin w)) ∧
  (floatingContainer (plugin w) ≠ None →
   loadSettings (restarted host (data_file (exec w ResizeDragEnd)))
     = settings (plugin (exec w ResizeDragEnd))).
Proof.
  intros Hr. split.
  - by apply (reachable_keeps tab_saved); [apply tab_saved_init | apply tab_saved_step|].
  - intros Hc. destruct w as [[s c t f p o vis d] vs n ts nid sa al tr un].
    psimpl. destruct c; [|done]. munfold.
    unfold data_file. psimpl. rewrite foldl_app. cbn [foldl]. psimpl.
    apply load_persisted.
Qed.

(** ** Nothing is built before the user asks *)

Ltac idle_start :=
  intros w _ (Hnull & Hvis & Hviews & Htimers & Halive & Hunc & Htr);
  destruct Hnull as (? & ? & ? & ?);
  destruct_records; psimpl; subst; mrun.

Ltac idle_solve :=
  try match goal with
      | H : [] !! _ = Some _ |- _ => by rewrite lookup_nil in H
      | H : ∅ !! _ = Some _ |- _ => by rewrite lookup_empty in H
      end;
  try exact I;
  unfold idle, floating_handles_null; psimpl;
  split_and!; try done;
  forall_solve ltac:(solve [psimpl; cbn [created]; done]).

Lemma idle_step e : asks_for_terminal e = false → keeps idle (step e).
Proof.
  intros He. destruct e as [| | | |[]| | | | | | | | | | | | | | |];
    try discriminate He; idle_start; idle_solve.
Qed.

Lemma idle_init : idle (init host).
Proof. by repeat split. Qed.

(** X6.  The plugin builds nothing on its own: as long as the user has not
    shown or toggled the floating terminal nor opened the sidebar view, no
    terminal is constructed, no process is spawned, no callback is pending
    and no view exists, whatever else happens (layout-ready, settings
    changes, resize drags, resize notifications, time passing). *)
Theorem idle_until_asked (es : list Event) :
  Forall (λ e, asks_for_terminal e = false) es →
  idle (run es (init host)).
Proof.
  intros Hes.
  apply (run_keeps idle (λ e, asks_for_terminal e = false));
    [apply idle_step | done | apply reachable_init | apply idle_init].
Qed.

(** ** The resize handle *)

(** X7.  Every move of a resize drag refits the floating terminal at once,
    without the 50ms debounce and whether or not a process is held: one fit,
    a process resize per listener if the grid changed and a process is held,
    one scroll to the bottom; no callback is scheduled and nothing is saved.
    The new size is stored only when the drag ends, with the settings then in
    use. *)
Theorem resize_drag_fits_at_once (w : World) (c : Container) (t : Terminal) (f : nat)
    (newWidth newHeight : nat) (g : nat * nat) :
  floatingContainer (plugin w) = Some c →
  floatingTerminal (plugin w) = Some t →
  floatingFitAddon (plugin w) = Some f →
  trace (exec w (ResizeDragMove newWidth newHeight g))
    = trace w ++ fit_and_scroll (now w) f t (floatingPtyProcess (plugin w)) g ∧
  timers (exec w (ResizeDragMove newWidth newHeight g)) = timers w ∧
  floatingWidth (settings (plugin (exec w (ResizeDragMove newWidth newHeight g))))
    = newWidth ∧
  floatingHeight (settings (plugin (exec w (ResizeDragMove newWidth newHeight g))))
    = newHeight ∧
  trace (run [ResizeDragMove newWidth newHeight g; ResizeDragEnd] w)
    = trace (exec w (ResizeDragMove newWidth newHeight g)) ++
      [(now w, SaveData (settings (plugin (exec w (ResizeDragMove newWidth newHeight g)))))].
Proof.
  intros Hc Ht Hf. cbn [run foldl].
  destruct w as [[s c' t' f' p o vis d] vs n ts nid sa al tr un], t as [tid tc trw od or].
  psimpl. subst c' t' f'. unfold fit_and_scroll. psimpl.
  exec_step; exec_step; psimpl;
    rewrite <- ?app_assoc; cbn [app];
    try rewrite decide_True by done; try rewrite decide_False by done;
    by split_and!.
Qed.

(** ** The shell starts at the fitted size *)

(** X8.  In the second animation frame of an activation the fit runs before
    the spawn, and the resize listener is registered only afterwards: the
    process is spawned with the grid the container affords, not with the
    80x24 of the constructor, and the activation sends no resize to the
    process. *)
Theorem spawn_uses_fitted_grid (w : World) :
  attempt_ok (pty_attempt host (spawn_attempts w)) →
  (∀ c t f, floatingContainer (plugin w) = Some c →
     floatingTerminal (plugin w) = Some t →
     floatingFitAddon (plugin w) = Some f →
     floatingPtyProcess (plugin w) = None →
     ∃ w1, floatingFrameInner w = (Ok tt, w1) ∧
       trace w1 = trace w ++
         [(now w, FitAddonFit f);
          (now w, PtySpawn (next_id w)
                    (contract_request (shellPath (settings (plugin w)))
                       (resized (c_grid c) t)));
          (now w, TerminalFocus (t_id t))]) ∧
  (∀ i v t f, terminal v = Some t → fitAddon v = Some f → ptyProcess v = None →
     ∃ v1 w1, viewFrameInner i (v, w) = (Ok tt, (v1, w1)) ∧
       trace w1 = trace w ++
         [(now w, FitAddonFit f);
          (now w, PtySpawn (next_id w)
                    (contract_request (shellPath (settings (plugin w)))
                       (resized (v_grid v) t)));
          (now w, TerminalFocus (t_id t))]).
Proof.
  intros Hok. split.
  - intros c t f Hc Ht Hf Hp.
    destruct w as [[s c' t' f' p o vis d] vs n ts nid sa al tr un],
      t as [tid tc trw od or], c as [hid ct [gc gr]].
    psimpl. subst. unfold contract_request, resized. psimpl.
    mrun_scenario; attempt_cases; eexists; (split; [reflexivity|]); psimpl;
      rewrite <- ?app_assoc; cbn [app]; simplify_eq; done.
  - intros i v t f Ht Hf Hp.
    destruct w as [[s c' t' f' p o vis d] vs n ts nid sa al tr un],
      v as [vt vf vp vo vd va [gc gr]], t as [tid tc trw od or].
    psimpl. subst. unfold contract_request, resized. psimpl.
    mrun_scenario; unfold set_trace in *; psimpl; attempt_cases;
      do 2 eexists; (split; [reflexivity|]); psimpl;
      rewrite <- ?app_assoc; cbn [app]; simplify_eq; done.
Qed.

(** ** Unload *)

Lemma destroyFloating_effects w :
  ∃ w0, destroyFloatingTerminal w = (Ok tt, w0) ∧
    floating_handles_null (plugin w0) ∧
    views w0 = views w ∧ timers w0 = timers w ∧
    isSome (floatingContainer (plugin w0)) = isSome (floatingContainer (plugin w)) ∧
    (∀ p, floatingPtyProcess (plugin w) = Some p → alive w0 !! p = None) ∧
    (∀ p, alive w !! p = None → alive w0 !! p = None).
Proof.
  destruct w as [[s c t f p o vis d] vs n ts nid sa al tr un].
  destruct c as [[]|], t as [[]|], p, o; munfold; eexists;
    (split_and!; [reflexivity | by repeat split | done | done | done | | ]);
    psimpl; intros q Hq; simplify_eq;
    rewrite ?lookup_delete_None; auto.
Qed.

Lemma detachLeaf_kills i w :
  ∃ w', detachLeaf i w = (Ok tt, w') ∧ timers w' = timers w ∧
    (∀ p, alive w !! p = None → alive w' !! p = None) ∧
    (∀ v p, views w !! i = Some v → attached v = true → ptyProcess v = Some p →
            alive w' !! p = None).
Proof.
  destruct w as [p vs n ts nid sa al tr un].
  unfold detachLeaf, withView. cbn [views].
  destruct (vs !! i) as [[t f pty o d a g]|] eqn:Hi.
  - destruct a, t as [[]|], pty, o; munfold; eexists;
      (split_and!;
         [ reflexivity | done
         | psimpl; intros q Hq; rewrite ?lookup_delete_None; auto
         | psimpl; intros v q [= <-] Ha Hq; simplify_eq;
           rewrite ?lookup_delete_None; auto ]).
  - eexists. split_and!; try done.
Qed.

Lemma detach_all_kills l w :
  ∃ w', forM l detachLeaf w = (Ok tt, w') ∧ timers w' = timers w ∧
    (∀ p, alive w !! p = None → alive w' !! p = None) ∧
    (∀ j v p, j ∈ l → views w !! j = Some v → attached v = true →
              ptyProcess v = Some p → alive w' !! p = None).
Proof.
  revert w. induction l as [|i l IH]; intros w.
  - exists w. split_and!; try done. intros j v p Hj. by apply elem_of_nil in Hj.
  - destruct (detachLeaf_kills i w) as (w1 & E1 & T1 & M1 & K1).
    destruct (detachLeaf_spec i w) as (w1' & E1' & _ & _ & O1 & _).
    assert (w1' = w1) as -> by congruence.
    destruct (IH w1) as (w2 & E2 & T2 & M2 & K2).
    exists w2. split_and!.
    + cbn [forM]. unfold mbind, M_bind. by rewrite E1.
    + congruence.
    + auto.
    + intros j v p Hj Hv Ha Hp. destruct (decide (j = i)) as [->|Hne].
      * apply M2. by eapply K1.
      * apply elem_of_cons in Hj as [?|Hj]; [done|].
        eapply K2; [exact Hj| |exact Ha|exact Hp]. by rewrite O1.
Qed.

(** X9.  [onunload] never throws.  Afterwards the floating session holds no
    handle, every leaf is detached, every session that was attached holds no
    handle, and the processes those sessions held have been killed.  The
    callbacks that were pending stay pending: unload cancels no timer. *)
Theorem unload_releases_sessions (w : World) :
  ∃ w', onunload w = (Ok tt, w') ∧
    floating_handles_null (plugin w') ∧
    (∀ j v', views w' !! j = Some v' → attached v' = false) ∧
    (∀ j u, views w !! j = Some u → attached u = true →
            ∃ u', views w' !! j = Some u' ∧ view_handles_null u') ∧
    (∀ p, floatingPtyProcess (plugin w) = Some p → alive w' !! p = None) ∧
    (∀ j u p, views w !! j = Some u → attached u = true → ptyProcess u = Some p →
              alive w' !! p = None) ∧
    timers w' = timers w.
Proof.
  destruct (destroyFloating_effects w) as (w0 & E0 & N0 & V0 & T0 & _ & K0 & M0).
  destruct (detach_all_spec (seq 0 (length (views w0))) w0) as (w1 & E1 & P1 & L1 & A1).
  destruct (detach_all_kills (seq 0 (length (views w0))) w0) as (w1' & E1' & T1 & M1 & K1).
  assert (w1' = w1) as -> by congruence.
  assert (Hin : ∀ j u, views w0 !! j = Some u → j ∈ seq 0 (length (views w0))).
  { intros j u Hj. apply elem_of_seq. apply lookup_lt_Some in Hj. lia. }
  exists w1. split_and!.
  - unfold onunload, mbind, M_bind. rewrite E0. unfold gets.
    destruct (floatingContainer (plugin w0)); cbn [whenSome];
      unfold mret, M_ret, detachLeavesOfType, mbind, M_bind, gets; by rewrite E1.
  - by rewrite P1.
  - intros j v' Hj.
    assert (j < length (views w0)) as Hlt.
    { rewrite <- L1. by eapply lookup_lt_Some. }
    destruct (lookup_lt_is_Some_2 (views w0) j Hlt) as (u & Hu).
    destruct (A1 j u Hu) as (u' & Hu' & _ & Hd).
    rewrite Hj in Hu'. injection Hu' as <-. by apply Hd, (Hin j u).
  - intros j u Hj Ha. rewrite <- V0 in Hj.
    destruct (A1 j u Hj) as (u' & Hu' & _ & Hd).
    exists u'. split; [done|]. by apply Hd; [apply (Hin j u)|].
  - intros p Hp. by apply M1, K0.
  - intros j u p Hj Ha Hp. rewrite <- V0 in Hj.
    eapply K1; [by apply (Hin j u) | exact Hj | exact Ha | exact Hp].
  - congruence.
Qed.

(** ** Callbacks outlive the session they were scheduled for *)

Lemma insert_snoc {A} (l : list A) (x y : A) :
  <[length l := y]> (l ++ [x]) = l ++ [y].
Proof.
  rewrite insert_app_r_alt by done. by rewrite Nat.sub_diag.
Qed.

Lemma find_timer_snoc_ne k l tm :
  timer_id tm ≠ k → find_timer k (l ++ [tm]) = find_timer k l.
Proof.
  intros H. unfold find_timer. rewrite filter_app.
  rewrite (filter_cons_False _ tm) by (intros ?; done).
  by rewrite filter_nil, app_nil_r.
Qed.

Lemma filter_timer_snoc_ne k l tm :
  timer_id tm ≠ k →
  filter (λ x, timer_id x ≠ k) (l ++ [tm]) = filter (λ x, timer_id x ≠ k) l ++ [tm].
Proof. intros H. rewrite filter_app. by rewrite (filter_cons_True _ tm). Qed.

Lemma exec_fire w k tm :
  find_timer k (timers w) = Some tm → due tm ≤ now w →
  exec w (Fire k) =
  match (clearTimeout k;; run_callback (callback tm)) w with
  | (Ok _, w') => w'
  | (Throw err, w') => set_uncaught (λ l, l ++ [err]) w'
  end.
Proof.
  intros Hf Hd. unfold exec. cbn [step]. unfold fire.
  unfold mbind at 1, M_bind at 1, gets. rewrite Hf. by rewrite decide_True.
Qed.

(** Run a callback whose timer is found by rewriting. *)
Ltac fire_known :=
  match goal with
  | |- context [exec ?W (Fire ?k)] =>
      let F := fresh "F" in
      eassert (F : find_timer k (timers W) = Some _);
      [ cbn [timers Nat.add];
        rewrite ?find_timer_snoc_ne by (cbn [timer_id]; lia);
        first [ apply find_timer_last; timers_side | apply find_timer_self ]
      | rewrite (exec_fire W k _ F) by (cbn [due now]; lia);
        clear F; cbn [callback] ]
  end.

Ltac mrun_views :=
  repeat (destruct_records; munfold; cbn [timer_id due callback Nat.add]; mloops;
          munfold;
          try first
            [ rewrite insert_snoc
            | rewrite find_timer_snoc_ne by (cbn [timer_id]; lia)
            | rewrite filter_timer_snoc_ne by (cbn [timer_id]; lia)
            | rewrite find_timer_last by timers_side
            | rewrite filter_timer_last by timers_side
            | rewrite (find_timer_absent _ _ _ ltac:(eassumption)) by lia
            | rewrite list_insert_insert_eq
            | rewrite find_timer_self
            | rewrite filter_timer_self
            | rewrite list_lookup_insert_eq by (eapply lookup_lt_Some; eassumption)
            | match goal with
              | E : ?l !! ?i = Some _ |- context [?l !! ?i] => rewrite E
              end
            | match goal with
              | E : pty_attempt ?h ?n = _ |- context [pty_attempt ?h ?n] => rewrite E
              end
            | match goal with
              | |- context [decide (?a ≤ ?b)] =>
                  first [ rewrite (decide_True (P := a ≤ b)) by lia
                        | rewrite (decide_False (P := a ≤ b)) by lia ]
              end
            | match goal with
              | |- context [decide (?a = ?b)] =>
                  first [ rewrite (decide_True (P := a = b)) by first [reflexivity | assumption]
                        | rewrite (decide_False (P := a = b)) by assumption ]
              end
            | case_stuck ]).

Ltac exec_views :=
  match goal with
  | |- context [exec ?W ?e] =>
      lazymatch W with context [exec _ _] => fail | _ => idtac end;
      pattern (exec W e);
      match goal with
      | |- ?P _ =>
          let Q := fresh "Q" in
          set (Q := P); try fire_known; mrun_views; subst Q; cbv beta
      end
  end.

Lemma open_sidebar_effects (w : World) :
  views (exec w (OpenInSidebar true)) = views w ++ [fresh_view host] ∧
  timers (exec w (OpenInSidebar true))
    = timers w ++ [mkTimer (next_id w) (now w + 100) (ViewOpenTimeout (length (views w)))] ∧
  next_id (exec w (OpenInSidebar true)) = S (next_id w) ∧
  now (exec w (OpenInSidebar true)) = now w ∧
  spawn_attempts (exec w (OpenInSidebar true)) = spawn_attempts w.
Proof.
  destruct w as [[s c t f p o vis d] vs n ts nid sa al tr un].
  exec_views; psimpl; rewrite ?insert_snoc_same; by split_and!.
Qed.

Lemma open_timeout_on_closed_leaf (w : World) (i k d : nat) (v : ClaudeTerminalView)
    (ts : list Timer) :
  views w !! i = Some v → view_handles_null v → attached v = true →
  timers w = ts ++ [mkTimer k d (ViewOpenTimeout i)] →
  Forall (λ tm, timer_id tm < k) ts →
  next_id w = S k → d ≤ now w + 100 →
  attempt_ok (pty_attempt host (spawn_attempts w)) →
  ∃ v' t,
    views (run [CloseLeaf i; Tick 100; Fire k; Fire (3 + k); Fire (5 + k)] w) !! i
      = Some v' ∧
    attached v' = false ∧ terminal v' = Some t ∧ t_id t = 1 + k ∧
    ptyProcess v' = Some (6 + k) ∧
    alive (run [CloseLeaf i; Tick 100; Fire k; Fire (3 + k); Fire (5 + k)] w)
      !! (6 + k) = Some (Docked i) ∧
    alive (run [CloseLeaf i; Tick 100; Fire k; Fire (3 + k); Fire (5 + k);
                CloseLeaf i] w)
      !! (6 + k) = Some (Docked i).
Proof.
  intros Hi (Ht & Hp & Hf & Ho) Hatt Hts Hlt Hnid Hd Hok.
  destruct w as [pl vs n ts' nid sa al tr un], v as [vt vf vp vo vd va vg].
  psimpl. subst. cbn [run foldl].
  pose proof (lookup_lt_Some _ _ _ Hi) as Hlen.
  destruct (pty_attempt host sa) as [[e1|] [e2|] [e3|]] eqn:Ha; attempt_cases.
  all: do 6 exec_views.
  all: do 2 eexists; psimpl; cbn [Nat.add];
    (split_and!; [by apply list_lookup_insert_eq | done | done | done | done
                 | apply lookup_insert_eq | apply lookup_insert_eq]).
Qed.

(** X10.  Closing a docked leaf does not cancel what [onOpen] scheduled.  When
    a leaf is closed within the 100ms before its terminal is initialised, the
    timeout still runs: a terminal is constructed on the closed leaf and,
    after its two animation frames, a shell process is spawned for it.  Closing
    the leaf again does nothing: the process stays alive. *)
Theorem closed_leaf_still_initialised (w : World) :
  reachable w →
  attempt_ok (pty_attempt host (spawn_attempts w)) →
  ∃ v t,
    views (run [OpenInSidebar true; CloseLeaf (length (views w)); Tick 100;
                Fire (next_id w); Fire (3 + next_id w); Fire (5 + next_id w)] w)
      !! length (views w) = Some v ∧
    attached v = false ∧ terminal v = Some t ∧ t_id t = 1 + next_id w ∧
    ptyProcess v = Some (6 + next_id w) ∧
    alive (run [OpenInSidebar true; CloseLeaf (length (views w)); Tick 100;
                Fire (next_id w); Fire (3 + next_id w); Fire (5 + next_id w)] w)
      !! (6 + next_id w) = Some (Docked (length (views w))) ∧
    alive (run [OpenInSidebar true; CloseLeaf (length (views w)); Tick 100;
                Fire (next_id w); Fire (3 + next_id w); Fire (5 + next_id w);
                CloseLeaf (length (views w))] w)
      !! (6 + next_id w) = Some (Docked (length (views w))).
Proof.
  intros Hr Hok. pose proof (reachable_ids_ok _ Hr) as (Hts & _).
  destruct (open_sidebar_effects w) as (Hv & Ht & Hn & Hnow & Hsa).
  apply (open_timeout_on_closed_leaf (exec w (OpenInSidebar true))
           (length (views w)) (next_id w) (now w + 100) (fresh_view host) (timers w)).
  - rewrite Hv. by apply list_lookup_middle.
  - by repeat split.
  - done.
  - done.
  - done.
  - done.
  - rewrite Hnow. lia.
  - by rewrite Hsa.
Qed.

Lemma startFloatingPty_started (w : World) (t : Terminal) :
  floatingTerminal (plugin w) = Some t →
  attempt_ok (pty_attempt host (spawn_attempts w)) →
  startFloatingPty w = (Ok tt, floating_started t w).
Proof.
  intros Ht Hok. destruct w as [[[sh al' fs fw fh] c t' f p o vis d] vs n ts nid sa al tr un].
  psimpl. subst t'. destruct t as [tid tc trw od or].
  unfold floating_started, contract_request, spawn_env. psimpl.
  destruct (pty_attempt host sa) as [[e1|] [e2|] [e3|]] eqn:Ha; attempt_cases.
  all: destruct al'; munfold; rewrite Ha; munfold; reflexivity.
Qed.

(** Evaluation that leaves [startFloatingPty] to the lemma above. *)
Ltac munfold_frames :=
  cbv beta iota zeta delta
    [step exec fire run_callback when_attached
     toggleFloatingTerminal showFloatingTerminal hideFloatingTerminal
     initializeFloatingTerminal destroyFloatingTerminal
     floatingFrameOuter floatingFrameInner floatingFitDebounce floatingAutoLaunch
     floatingObserved floatingFit createFloatingContainer
     clickClear clickClose terminalInput
     emit fresh setTimeout clearTimeout requestAnimationFrame whenSome kill
     mbind mret M_bind M_ret throw try_catch gets modify deref
     set_plugin set_views set_now set_timers set_next_id set_spawn_attempts
     set_alive set_trace set_uncaught
     set_settings set_floatingContainer set_floatingTerminal set_floatingFitAddon
     set_floatingPtyProcess set_floatingResizeObserver set_isFloatingVisible
     set_floatingFitDebounceTimer resized listening floating_started
     plugin views now timers next_id spawn_attempts alive trace uncaught
     settings floatingContainer floatingTerminal floatingFitAddon floatingPtyProcess
     floatingResizeObserver isFloatingVisible floatingFitDebounceTimer
     t_id cols rows onData onResize is_hidden content c_grid
     shellPath autoLaunchClaude fontSize floatingWidth floatingHeight
     fst snd].

Ltac mrun_frames :=
  repeat (destruct_records; munfold_frames; cbn [timer_id due callback Nat.add]; mloops;
          munfold_frames;
          try first
            [ erewrite startFloatingPty_started by first [reflexivity | eassumption]
            | rewrite find_timer_snoc_ne by (cbn [timer_id]; lia)
            | rewrite filter_timer_snoc_ne by (cbn [timer_id]; lia)
            | rewrite find_timer_last by timers_side
            | rewrite filter_timer_last by timers_side
            | match goal with
              | |- context [decide (?a ≤ ?b)] =>
                  first [ rewrite (decide_True (P := a ≤ b)) by lia
                        | rewrite (decide_False (P := a ≤ b)) by lia ]
              end
            | match goal with
              | |- context [decide (?a = ?b)] =>
                  first [ rewrite (decide_True (P := a = b)) by first [reflexivity | assumption]
                        | rewrite (decide_False (P := a = b)) by assumption ]
              end
            | case_stuck ]).

Ltac exec_frames :=
  match goal with
  | |- context [exec ?W ?e] =>
      lazymatch W with context [exec _ _] => fail | _ => idtac end;
      pattern (exec W e);
      match goal with
      | |- ?P _ =>
          let Q := fresh "Q" in
          set (Q := P); try fire_known; mrun_frames; subst Q; cbv beta
      end
  end.

(** X11.  The animation frames of a closed floating session are not
    cancelled either.  When the floating terminal is shown, closed and shown
    again before the frames of the first show have run, both pairs of frames
    activate the second terminal: two processes are spawned, the session
    keeps only the second, and both sets of listeners stay registered, so a
    keystroke is written twice to the second process.  Closing the session
    kills the second process only; the first stays alive. *)
Theorem double_activation (w : World) (c : Container) (data : string) :
  reachable w →
  floatingContainer (plugin w) = Some c →
  floatingTerminal (plugin w) = None →
  attempt_ok (pty_attempt host (spawn_attempts w)) →
  attempt_ok (pty_attempt host (S (spawn_attempts w))) →
  ∃ p1 p2 t,
    p1 ≠ p2 ∧
    floatingPtyProcess
      (plugin (run [ShowFloating; ClickClose; ShowFloating; Fire (2 + next_id w);
                    Fire (6 + next_id w); Fire (8 + next_id w); Fire (9 + next_id w)] w))
      = Some p2 ∧
    floatingTerminal
      (plugin (run [ShowFloating; ClickClose; ShowFloating; Fire (2 + next_id w);
                    Fire (6 + next_id w); Fire (8 + next_id w); Fire (9 + next_id w)] w))
      = Some t ∧
    onData t = 2 ∧
    alive (run [ShowFloating; ClickClose; ShowFloating; Fire (2 + next_id w);
                Fire (6 + next_id w); Fire (8 + next_id w); Fire (9 + next_id w)] w)
      !! p1 = Some Floating ∧
    alive (run [ShowFloating; ClickClose; ShowFloating; Fire (2 + next_id w);
                Fire (6 + next_id w); Fire (8 + next_id w); Fire (9 + next_id w)] w)
      !! p2 = Some Floating ∧
    trace (run [ShowFloating; ClickClose; ShowFloating; Fire (2 + next_id w);
                Fire (6 + next_id w); Fire (8 + next_id w); Fire (9 + next_id w);
                TerminalInput Floating data] w)
      = trace (run [ShowFloating; ClickClose; ShowFloating; Fire (2 + next_id w);
                    Fire (6 + next_id w); Fire (8 + next_id w); Fire (9 + next_id w)] w)
        ++ [(now w, PtyWrite Keyboard p2 data); (now w, PtyWrite Keyboard p2 data)] ∧
    alive (run [ShowFloating; ClickClose; ShowFloating; Fire (2 + next_id w);
                Fire (6 + next_id w); Fire (8 + next_id w); Fire (9 + next_id w);
                ClickClose] w)
      !! p1 = Some Floating.
Proof.
  intros Hr Hc Ht Hok1 Hok2.
  pose proof (reachable_ids_ok _ Hr) as (Hts & _).
  destruct (reachable_coherent _ Hr) as (_ & Hf & _).
  destruct Hf as (Hpty & Hfit & Hobs & _). clear Hr.
  destruct w as [[s c' t f p o vis d] vs n ts nid sa al tr un].
  psimpl. subst c' t. destruct p; [by specialize (Hpty eq_refl)|].
  destruct f, o; try done. clear Hpty Hfit Hobs.
  cbn [run foldl].
  do 9 exec_frames.
  all: match goal with
       | |- context [<[?q2 := Floating]> (<[?q1 := Floating]> _)] => exists q1, q2
       end;
    eexists; psimpl; cbn [replicate];
    (split_and!;
       [ lia | reflexivity | reflexivity | reflexivity
       | rewrite lookup_insert_ne by lia; apply lookup_insert_eq
       | apply lookup_insert_eq
       | reflexivity
       | rewrite lookup_delete_ne by lia; rewrite lookup_insert_ne by lia;
         apply lookup_insert_eq ]).
Qed.


(** ** Held processes are alive *)

Ltac alive_neq :=
  let E := fresh in
  intros E; subst;
  first [ congruence
        | repeat match goal with
                 | H3 : ∀ p s, ?al !! p = Some s → p < _, F : ?al !! _ = Some _ |- _ =>
                     apply H3 in F
                 end; lia ].

Ltac alive_lookup :=
  repeat first
    [ rewrite lookup_insert_eq
    | rewrite lookup_insert_ne by alive_neq
    | rewrite lookup_delete_ne by alive_neq ];
  try first [ done | solve [eauto] ].

Ltac held_facts H1 H2 :=
  try (pose proof (H1 _ eq_refl));
  repeat match goal with
         | E : ?vs !! ?i = Some (mkView _ _ (Some ?q) _ _ _ _) |- _ =>
             lazymatch goal with
             | _ : _ !! q = Some (Docked i) |- _ => fail
             | _ => pose proof (H2 _ _ _ E eq_refl)
             end
         end.

Ltac held_views H2 Hi' Hp' :=
  repeat first
    [ rewrite insert_snoc_same in Hi'
    | match type of Hi' with
      | <[?j := _]> _ !! ?i' = Some _ =>
          destruct (decide (i' = j)) as [->|];
          [ rewrite list_lookup_insert_eq in Hi' by (eapply lookup_lt_Some; eassumption)
          | rewrite list_lookup_insert_ne in Hi' by done ]
      | (_ ++ [_]) !! _ = Some _ =>
          apply lookup_app_Some in Hi' as [Hi'|[_ Hi']];
          [ | apply list_lookup_singleton_Some in Hi' as [_ <-]; discriminate Hp' ]
      end ];
  simplify_eq; psimpl; simplify_eq;
  try (pose proof (H2 _ _ _ Hi' Hp')).

Ltac held_solve :=
  try exact I;
  let H1 := fresh "H1" in
  let H2 := fresh "H2" in
  let H3 := fresh "H3" in
  let p' := fresh "p" in
  let i' := fresh "i" in
  let v' := fresh "v" in
  let s' := fresh "s" in
  let Hi' := fresh "Hi" in
  let Hp' := fresh "Hp" in
  match goal with HQ : held_alive _ |- _ => destruct HQ as (H1 & H2 & H3) end;
  unfold held_alive; psimpl; held_facts H1 H2;
  split_and!;
  [ intros p' Hp'; try (pose proof (H1 _ Hp')); simplify_eq; alive_lookup
  | intros i' v' p' Hi' Hp'; held_views H2 Hi' Hp'; alive_lookup
  | intros p' s' Hp';
    repeat first
      [ apply lookup_insert_Some in Hp' as [[<- _]|[_ Hp']]; [lia|]
      | apply lookup_delete_Some in Hp' as [_ Hp'] ];
    apply H3 in Hp'; lia ].

Lemma held_alive_step e : keeps held_alive (step e).
Proof.
  apply keeps_step.
  - intros cb. destruct cb; keeps_start; held_solve.
  - intros id. keeps_start; held_solve.
  - intros i. keeps_start; held_solve.
  - keeps_start; held_solve.
  - destruct e; try exact I; keeps_start; held_solve.
Qed.

Lemma held_alive_init : held_alive (init host).
Proof. by repeat split. Qed.

(** X12.  A session never keeps the handle of a process it has killed: in
    every reachable state the process handle held by the floating surface, and
    the one held by each docked view, is that of a process which was spawned
    for that very surface and which the plugin has not killed. *)
Theorem held_processes_alive (w : World) :
  reachable w →
  (∀ p, floatingPtyProcess (plugin w) = Some p → alive w !! p = Some Floating) ∧
  (∀ i v p, views w !! i = Some v → ptyProcess v = Some p →
            alive w !! p = Some (Docked i)).
Proof.
  intros Hr.
  destruct (reachable_keeps held_alive held_alive_init held_alive_step w Hr)
    as (H1 & H2 & _).
  by split.
Qed.

End Model.

(** * The claims on concrete runs *)

Lemma reachable_scenario (h : Host) (es : list Event) :
  reachable h (run h es (init h)).
Proof. by exists es. Qed.

(** ** Runs on which the claims as first stated fail *)

(** Against C1 as first stated.  Hiding the floating terminal and then
    opening the sidebar leaves two live sessions, each with its own shell
    process; and showing the floating terminal while a docked leaf is open
    leaves both surfaces visible. *)
Lemma hidden_floating_survives_docking :
  floating_live (run demo_host hide_then_dock (init demo_host)) ∧
  docked_live (run demo_host hide_then_dock (init demo_host)) ∧
  spawns (trace (run demo_host hide_then_dock (init demo_host))) = [(0, 5); (100, 13)] ∧
  alive (run demo_host hide_then_dock (init demo_host)) = {[ 5 := Floating; 13 := Docked 0 ]} ∧
  floating_visible (run demo_host dock_then_show (init demo_host)) ∧
  docked_visible (run demo_host dock_then_show (init demo_host)) ∧
  ¬ mutually_exclusive (run demo_host hide_then_dock (init demo_host)) ∧
  ¬ mutually_exclusive (run demo_host dock_then_show (init demo_host)).
Proof.
  assert (Hfl : floating_live (run demo_host hide_then_dock (init demo_host))).
  { split; intros H; vm_compute in H; discriminate H. }
  assert (Hdl : docked_live (run demo_host hide_then_dock (init demo_host))).
  { exists 0, (mkView (Some (mkTerminal 8 100 30 1 1)) (Some 9) (Some 13) (Some 11)
                      None true (100, 30)).
    split; [vm_compute; reflexivity|]. split; discriminate. }
  assert (Hfv : floating_visible (run demo_host dock_then_show (init demo_host))).
  { vm_compute. reflexivity. }
  assert (Hdv : docked_visible (run demo_host dock_then_show (init demo_host))).
  { exists 0, (fresh_view demo_host). split; vm_compute; reflexivity. }
  split_and!; try assumption.
  - vm_compute. reflexivity.
  - vm_compute. reflexivity.
  - intros [_ H]. apply H. by split.
  - intros [H _]. apply H. by split.
Qed.

(** Against the floating half of C3.  With a shell that cannot be spawned,
    the failed activation of the floating session writes the red error line
    only; the same failure in a docked view writes the red line and the text
    of the exception.  In the floating run nothing is left uncaught, the
    terminal stays and no process is held. *)
Lemma floating_failure_hides_error_text :
  terminal_writes (trace (run enoent_host activate_floating (init enoent_host)))
    = [error_line] ∧
  terminal_writes (trace (run enoent_host activate_docked (init enoent_host)))
    = [error_line; error_text "Error: spawn /bin/nosuchsh ENOENT"] ∧
  uncaught (run enoent_host activate_floating (init enoent_host)) = [] ∧
  floatingTerminal (plugin (run enoent_host activate_floating (init enoent_host)))
    = Some (mkTerminal 0 100 30 0 0) ∧
  floatingPtyProcess (plugin (run enoent_host activate_floating (init enoent_host)))
    = None.
Proof. split_and!; vm_compute; reflexivity. Qed.

(** Against C5 as first stated.  Closing the floating terminal right after a
    resize notification nulls the session, but the debounce callback stays
    queued and its handle stays in the timer field. *)
Lemma close_leaves_debounce_pending :
  floating_handles_null (plugin (run demo_host resize_then_close (init demo_host))) ∧
  timers (run demo_host resize_then_close (init demo_host))
    = [mkTimer 6 300 FloatingAutoLaunch; mkTimer 7 50 FloatingFitDebounce] ∧
  floatingFitDebounceTimer (plugin (run demo_host resize_then_close (init demo_host)))
    = Some 7.
Proof. split_and!; vm_compute; by repeat split. Qed.

(** Against C7 as first stated.  Auto-launch is enabled in both runs.  A
    session closed 100ms after its spawn never gets the command.  When a
    session is closed 250ms after its spawn and shown again at once, the new
    session gets the command twice: from the callback of the closed session,
    50ms after the new spawn, and from its own. *)
Lemma stale_launch_callback :
  autoLaunchClaude (loadSettings demo_host) = true ∧
  spawns (trace (run demo_host close_before_launch (init demo_host))) = [(0, 5)] ∧
  injections (trace (run demo_host close_before_launch (init demo_host))) = [] ∧
  timers (run demo_host close_before_launch (init demo_host)) = [] ∧
  spawns (trace (run demo_host reopen_before_launch (init demo_host)))
    = [(0, 5); (250, 12)] ∧
  injections (trace (run demo_host reopen_before_launch (init demo_host)))
    = [(300, 12); (550, 12)].
Proof. split_and!; vm_compute; reflexivity. Qed.


(** ** The theorems at work *)

(** Before layout-ready on the demo host: toggling changes nothing. *)
Lemma floating_ops_before_layout_ready_witness :
  exec demo_host (init demo_host) ToggleFloating = init demo_host ∧
  isFloatingVisible (plugin (init demo_host)) = false.
Proof.
  destruct (floating_ops_before_layout_ready demo_host (init demo_host))
    as (_ & _ & _ & _ & _ & Htoggle & Hvis & _).
  - apply (reachable_scenario demo_host []).
  - reflexivity.
  - by split.
Defined.

(** Destroy on the initial, never-constructed floating session. *)
Lemma destroy_idempotent_witness :
  destroyFloatingTerminal (init demo_host) = (Ok tt, init demo_host).
Proof.
  destruct destroy_idempotent as (_ & Hnull & _).
  apply Hnull.
  - by repeat split.
  - intros c Hc. discriminate Hc.
Defined.

(** The activated floating session holds process 5, hence a terminal. *)
Lemma process_only_with_surface_witness :
  floatingPtyProcess (plugin (run demo_host activate_floating (init demo_host))) = Some 5 ∧
  floatingTerminal (plugin (run demo_host activate_floating (init demo_host))) ≠ None.
Proof.
  assert (Hp : floatingPtyProcess
                 (plugin (run demo_host activate_floating (init demo_host))) = Some 5).
  { vm_compute. reflexivity. }
  split; [exact Hp|].
  destruct (process_only_with_surface demo_host
              (run demo_host activate_floating (init demo_host))) as (Hinv & _).
  - apply reachable_scenario.
  - apply Hinv. rewrite Hp. discriminate.
Defined.

(** The failing activation of the floating session on the host without a
    shell. *)
Lemma spawn_failure_reporting_witness :
  ∃ w1, startFloatingPty enoent_host
          (run enoent_host [LayoutReady; ShowFloating] (init enoent_host)) = (Ok tt, w1) ∧
        floatingTerminal (plugin w1) = Some (mkTerminal 0 80 24 0 0) ∧
        floatingPtyProcess (plugin w1) = None ∧
        terminal_writes (trace w1) = [error_line].
Proof.
  destruct (spawn_failure_reporting enoent_host
              (run enoent_host [LayoutReady; ShowFloating] (init enoent_host))
              "Error: spawn /bin/nosuchsh ENOENT") as (Hfloat & _).
  - right. split; [left|]; reflexivity.
  - destruct (Hfloat (mkTerminal 0 80 24 0 0)) as (w1 & E & Ht & Hp & _ & _ & _ & Htr).
    + vm_compute. reflexivity.
    + exists w1. split_and!; [exact E | exact Ht | | ].
      * rewrite Hp. vm_compute. reflexivity.
      * rewrite Htr. vm_compute. reflexivity.
Defined.

(** Starting the pty of the freshly built floating terminal of the demo
    host. *)
Lemma spawn_contract_witness :
  ∃ w1, startFloatingPty demo_host
          (run demo_host [LayoutReady; ShowFloating] (init demo_host)) = (Ok tt, w1) ∧
        floatingPtyProcess (plugin w1) = Some 4 ∧
        spawns (trace w1) = [(0, 4)].
Proof.
  destruct (spawn_contract demo_host
              (run demo_host [LayoutReady; ShowFloating] (init demo_host)))
    as (Hfloat & _).
  destruct (Hfloat (mkTerminal 0 80 24 0 0)) as (w1 & E & Hp & Htr).
  - vm_compute. reflexivity.
  - split; [left|]; reflexivity.
  - exists w1. split_and!; [exact E | exact Hp | ].
    rewrite Htr. vm_compute. reflexivity.
Defined.

(** On the activated floating session: hide and show keep process 5; close,
    show and the two frames end with the new process 12. *)
Lemma hide_keeps_close_destroys_witness :
  floatingPtyProcess
    (plugin (run demo_host [HideFloating; ShowFloating]
               (run demo_host activate_floating (init demo_host)))) = Some 5 ∧
  floatingPtyProcess
    (plugin (run demo_host [ClickClose; ShowFloating; Fire 9; Fire 11]
               (run demo_host activate_floating (init demo_host)))) = Some 12.
Proof.
  destruct (hide_keeps_close_destroys demo_host
              (run demo_host activate_floating (init demo_host))
              (mkContainer false [0] (100, 30))) as (Hhide & Hclose).
  - apply reachable_scenario.
  - vm_compute. reflexivity.
  - split.
    + destruct (Hhide (mkTerminal 0 100 30 1 1)) as (_ & Hp & _).
      * vm_compute. reflexivity.
      * cbv zeta in Hp. rewrite Hp. vm_compute. reflexivity.
    + destruct Hclose as (_ & Hp & _).
      * split; [left|]; reflexivity.
      * exact Hp.
Defined.

(** Opening the sidebar while the activated floating session is visible. *)
Lemma mode_coordination_witness :
  floating_handles_null
    (plugin (exec demo_host (run demo_host activate_floating (init demo_host))
               (OpenInSidebar true))).
Proof.
  destruct (mode_coordination demo_host
              (run demo_host activate_floating (init demo_host))) as (Hopen & _).
  - apply reachable_scenario.
  - destruct (Hopen true) as (_ & Hvisible & _).
    apply Hvisible. vm_compute. reflexivity.
Defined.

(** The debounce callback left pending by a close does nothing. *)
Lemma destroy_leaves_guarded_timer_witness :
  floatingFitDebounce (run demo_host resize_then_close (init demo_host))
    = (Ok tt, run demo_host resize_then_close (init demo_host)).
Proof.
  destruct (destroy_leaves_guarded_timer demo_host) as (_ & _ & Hguard & _).
  apply Hguard. left. vm_compute. reflexivity.
Defined.

(** Auto-launch of the freshly built floating terminal of the demo host. *)
Lemma auto_launch_once_witness :
  floating_launch_spec demo_host
    (run demo_host [LayoutReady; ShowFloating] (init demo_host)).
Proof.
  destruct (auto_launch_once demo_host
              (run demo_host [LayoutReady; ShowFloating] (init demo_host)))
    as (Hfloat & _).
  - apply reachable_scenario.
  - apply (Hfloat (mkTerminal 0 80 24 0 0)).
    + vm_compute. reflexivity.
    + split; [left|]; reflexivity.
Defined.


(** * The pointer handlers of the floating window *)

Section PointerFacts.
Import QArith.QArith Qminmax Lqa.
Import Pointer.
Local Open Scope Q_scope.

Lemma moves_keep_drag (q : Q * Q * Q * Q) (ms : list PointerEvent) :
  Forall (λ e, is_move e = true) ms →
  ∀ r b, ∃ r' b',
    foldl (deliver true) (mkDrag true (Some q) true r b) ms
      = mkDrag true (Some q) true r' b'.
Proof.
  induction 1 as [|e ms He _ IH]; intros r b; [by exists r, b|].
  destruct e as [| x y |]; try discriminate He.
  destruct q as [[[sx sy] sr] sb]. cbn [foldl deliver on_document onMouseMove
    isDragging negb orb drag_start]. apply IH.
Qed.

Lemma idle_pointer (hc : bool) (es : list PointerEvent) :
  Forall (λ e, starts_drag e = false) es →
  ∀ st, on_document st = false → foldl (deliver hc) st es = st.
Proof.
  induction 1 as [|e es He _ IH]; intros st Hst; [done|].
  cbn [foldl].
  assert (E : deliver hc st e = st).
  { destruct e as [[] ? ? ? ? ? ?| |]; try discriminate He; cbn [deliver drag_mousedown];
      by rewrite ?Hst. }
  rewrite E. by apply IH.
Qed.

Lemma drag_position_nonneg (hc : bool) (st : DragState) (e : PointerEvent) :
  (∀ r, style_right st = Some r → 0 <= r) ∧ (∀ b, style_bottom st = Some b → 0 <= b) →
  (∀ r, style_right (deliver hc st e) = Some r → 0 <= r) ∧
  (∀ b, style_bottom (deliver hc st e) = Some b → 0 <= b).
Proof.
  intros [Hr Hb].
  destruct e as [[] x y rr rb iw ih | x y |]; cbn [deliver drag_mousedown onMouseUp];
    try (destruct (on_document st)); cbn [style_right style_bottom]; try done.
  unfold onMouseMove.
  destruct (negb (isDragging st) || negb hc); [done|].
  destruct (drag_start st) as [[[[sx sy] sr] sb]|]; [|done].
  cbn [style_right style_bottom].
  split; intros ? [= <-]; apply Q.le_max_l.
Qed.


(** X14.  Dragging the header never pushes the window past the right or the
    bottom edge of the viewport: whatever presses, moves and releases are
    delivered, the [right] and [bottom] offsets that were set are not
    negative. *)
Theorem drag_stays_in_viewport (hc : bool) (es : list PointerEvent) :
  (∀ r, style_right (foldl (deliver hc) drag_init es) = Some r → 0 <= r) ∧
  (∀ b, style_bottom (foldl (deliver hc) drag_init es) = Some b → 0 <= b).
Proof.
  assert (H : ∀ st,
    (∀ r, style_right st = Some r → 0 <= r) ∧ (∀ b, style_bottom st = Some b → 0 <= b) →
    (∀ r, style_right (foldl (deliver hc) st es) = Some r → 0 <= r) ∧
    (∀ b, style_bottom (foldl (deliver hc) st es) = Some b → 0 <= b)).
  { induction es as [|e es IH]; intros st Hst; [exact Hst|].
    cbn [foldl]. apply IH. by apply drag_position_nonneg. }
  apply H. by split.
Qed.

(** X15.  During a drag the position of the window is computed from the
    press and the latest move only: after a press outside the buttons and any
    number of moves, a move to [(x, y)] puts the window at the offsets it had
    at the press plus the displacement of the pointer since the press, cut at
    zero.  Earlier moves leave no trace. *)
Theorem drag_follows_last_move (st : DragState) (x0 y0 rr rb iw ih x y : Q)
    (ms : list PointerEvent) :
  Forall (λ e, is_move e = true) ms →
  style_right (foldl (deliver true) st (Down false x0 y0 rr rb iw ih :: ms ++ [Move x y]))
    = Some (Qmax 0 ((iw - rr) + (x0 - x))) ∧
  style_bottom (foldl (deliver true) st (Down false x0 y0 rr rb iw ih :: ms ++ [Move x y]))
    = Some (Qmax 0 ((ih - rb) + (y0 - y))).
Proof.
  intros Hms. cbn [foldl deliver drag_mousedown]. rewrite foldl_app.
  destruct (moves_keep_drag (x0, y0, iw - rr, ih - rb) ms Hms
              (style_right st) (style_bottom st)) as (r' & b' & ->).
  by split.
Qed.

(** X16.  Without a press outside the buttons nothing is dragged: moves,
    releases and presses on a button leave the state as it is, both before
    the first drag and after a release, whatever the state was at the
    release. *)
Theorem no_drag_without_press (hc : bool) (st : DragState) (es : list PointerEvent) :
  Forall (λ e, starts_drag e = false) es →
  foldl (deliver hc) drag_init es = drag_init ∧
  foldl (deliver hc) (deliver hc st Up) es = deliver hc st Up.
Proof.
  intros Hes. split; apply idle_pointer; try done.
  cbn [deliver]. by destruct (on_document st) eqn:E.
Qed.


(** The window 100 from the right edge, pressed at x = 400 and moved over
    x = 300 to x = 350: it ends 150 from the right edge. *)
Lemma drag_follows_last_move_witness :
  style_right
    (foldl (deliver true) drag_init
       [Down false 400 50 900 700 1000 800; Move 300 60; Move 350 70])
    = Some (Qmax 0 ((1000 - 900) + (400 - 350))).
Proof.
  destruct (drag_follows_last_move drag_init 400 50 900 700 1000 800 350 70 [Move 300 60])
    as (Hr & _).
  - repeat constructor.
  - exact Hr.
Defined.

(** Moves, a release and a press on a button before any drag. *)
Lemma no_drag_without_press_witness :
  foldl (deliver true) drag_init
    [Move 10 10; Up; Down true 400 50 900 700 1000 800; Move 20 20] = drag_init.
Proof.
  destruct (no_drag_without_press true drag_init
              [Move 10 10; Up; Down true 400 50 900 700 1000 800; Move 20 20]) as (H & _).
  - repeat constructor.
  - exact H.
Defined.

End PointerFacts.

(** * The further properties on concrete runs *)


(** The activated floating session has a fit addon and a terminal. *)
Lemma session_handles_coherent_witness :
  floatingFitAddon (plugin (run demo_host activate_floating (init demo_host))) = None ↔
  floatingTerminal (plugin (run demo_host activate_floating (init demo_host))) = None.
Proof.
  destruct (session_handles_coherent demo_host
              (run demo_host activate_floating (init demo_host))) as (H & _).
  - apply reachable_scenario.
  - exact H.
Defined.

(** After layout-ready, a show, a close and a docking, showing again finds
    the container and builds a terminal. *)
Lemma container_persists_witness :
  floatingTerminal
    (plugin (exec demo_host
               (run demo_host [ShowFloating; ClickClose; OpenInSidebar true]
                  (run demo_host [LayoutReady] (init demo_host)))
               ShowFloating)) ≠ None.
Proof.
  destruct (container_persists demo_host
              (run demo_host [LayoutReady] (init demo_host))
              [ShowFloating; ClickClose; OpenInSidebar true]) as (_ & H).
  - apply reachable_scenario.
  - destruct H as (_ & _ & Ht).
    + intros E. vm_compute in E. discriminate E.
    + exact Ht.
Defined.

(** A font size changed in the tab and a resize drag ended: a restart loads
    the settings in use. *)
Lemma settings_survive_restart_witness :
  loadSettings
    (restarted demo_host
       (data_file demo_host
          (exec demo_host
             (run demo_host
                [LayoutReady; ChangeFontSize 18; ShowFloating; ResizeDragMove 640 480 (120, 40)]
                (init demo_host))
             ResizeDragEnd)))
  = mkSettings "/bin/bash" true 18 640 480.
Proof.
  destruct (settings_survive_restart demo_host
              (run demo_host
                 [LayoutReady; ChangeFontSize 18; ShowFloating; ResizeDragMove 640 480 (120, 40)]
                 (init demo_host))) as (_ & H).
  - apply reachable_scenario.
  - rewrite H.
    + vm_compute. reflexivity.
    + intros E. vm_compute in E. discriminate E.
Defined.

(** Layout-ready, settings changes, hiding, closing, a resize drag and
    time passing build nothing. *)
Lemma idle_until_asked_witness :
  idle (run demo_host
          [LayoutReady; ChangeFontSize 18; Tick 500; HideFloating; ClickClose;
           ResizeDragMove 640 480 (120, 40); ResizeDragEnd]
          (init demo_host)).
Proof.
  apply (idle_until_asked demo_host).
  repeat constructor.
Defined.

(** A move of the resize handle on the activated floating session. *)
Lemma resize_drag_fits_at_once_witness :
  trace (exec demo_host (run demo_host activate_floating (init demo_host))
           (ResizeDragMove 640 480 (120, 40)))
    = trace (run demo_host activate_floating (init demo_host)) ++
      [(0, FitAddonFit 1); (0, PtyResize 5 120 40); (0, TerminalScrollToBottom 0)] ∧
  timers (exec demo_host (run demo_host activate_floating (init demo_host))
            (ResizeDragMove 640 480 (120, 40)))
    = timers (run demo_host activate_floating (init demo_host)).
Proof.
  destruct (resize_drag_fits_at_once demo_host
              (run demo_host activate_floating (init demo_host))
              (mkContainer false [0] (100, 30)) (mkTerminal 0 100 30 1 1) 1
              640 480 (120, 40)) as (Htr & Htm & _).
  - vm_compute. reflexivity.
  - vm_compute. reflexivity.
  - vm_compute. reflexivity.
  - split; [|exact Htm].
    rewrite Htr. vm_compute. reflexivity.
Defined.

(** The second frame of the first activation on the demo host: the shell is
    spawned at 100 by 30, the grid of the container. *)
Lemma spawn_uses_fitted_grid_witness :
  ∃ w1, floatingFrameInner demo_host
          (run demo_host [LayoutReady; ShowFloating; Fire 2] (init demo_host)) = (Ok tt, w1) ∧
        trace w1 = trace (run demo_host [LayoutReady; ShowFloating; Fire 2] (init demo_host)) ++
          [(0, FitAddonFit 1);
           (0, PtySpawn 5 (contract_request demo_host "/bin/bash" (mkTerminal 0 100 30 0 0)));
           (0, TerminalFocus 0)].
Proof.
  destruct (spawn_uses_fitted_grid demo_host
              (run demo_host [LayoutReady; ShowFloating; Fire 2] (init demo_host)))
    as (Hfl & _).
  - split; [left|]; reflexivity.
  - destruct (Hfl (mkContainer false [0] (100, 30)) (mkTerminal 0 80 24 0 0) 1)
      as (w1 & E & Htr).
    + vm_compute. reflexivity.
    + vm_compute. reflexivity.
    + vm_compute. reflexivity.
    + vm_compute. reflexivity.
    + exists w1. split; [exact E|].
      rewrite Htr. vm_compute. reflexivity.
Defined.

(** A leaf opened and closed at once on the demo host: process 6 is spawned
    for it and survives a second close. *)
Lemma closed_leaf_still_initialised_witness :
  alive (run demo_host
           [OpenInSidebar true; CloseLeaf 0; Tick 100; Fire 0; Fire 3; Fire 5; CloseLeaf 0]
           (init demo_host))
    !! 6 = Some (Docked 0).
Proof.
  destruct (closed_leaf_still_initialised demo_host (init demo_host))
    as (v & t & _ & _ & _ & _ & _ & _ & H).
  - apply (reachable_scenario demo_host []).
  - split; [left|]; reflexivity.
  - exact H.
Defined.

(** Show, close and show again right after layout-ready on the demo host:
    two processes stay alive. *)
Lemma double_activation_witness :
  ∃ p1 p2, p1 ≠ p2 ∧
    alive (run demo_host
             [ShowFloating; ClickClose; ShowFloating; Fire 2; Fire 6; Fire 8; Fire 9]
             (run demo_host [LayoutReady] (init demo_host)))
      !! p1 = Some Floating ∧
    alive (run demo_host
             [ShowFloating; ClickClose; ShowFloating; Fire 2; Fire 6; Fire 8; Fire 9]
             (run demo_host [LayoutReady] (init demo_host)))
      !! p2 = Some Floating.
Proof.
  destruct (double_activation demo_host (run demo_host [LayoutReady] (init demo_host))
              (mkContainer true [] (100, 30)) "ls")
    as (p1 & p2 & t & Hne & _ & _ & _ & H1 & H2 & _).
  - apply reachable_scenario.
  - vm_compute. reflexivity.
  - vm_compute. reflexivity.
  - split; [left|]; reflexivity.
  - split; [left|]; reflexivity.
  - exists p1, p2. split_and!; [exact Hne | exact H1 | exact H2].
Defined.

(** The activated floating session holds process 5, which is alive. *)
Lemma held_processes_alive_witness :
  alive (run demo_host activate_floating (init demo_host)) !! 5 = Some Floating.
Proof.
  destruct (held_processes_alive demo_host
              (run demo_host activate_floating (init demo_host))) as (H & _).
  - apply reachable_scenario.
  - apply H. vm_compute. reflexivity.
Defined.
